(** * ISS tracker: a shallow embedding of [app.py]

    The dashboard fetches the two-line elements of the ISS, hands them to the
    Skyfield propagator and turns the rise/culminate/set events it gets back
    into a table of passes.  The two functions of the script, [fetch_tle] and
    [calculate_passes], and the top-level script ([main]) are embedded below.

    Conventions.
    - Python [int] is [Z]; Python [float] (and numpy [float64]) is the
      primitive binary64 type [float].
    - A Python [str] is a [string]; each [ascii] stands for one code point
      below 256.
    - Exceptions are values of [exn]; a computation that may raise has type
      [result A].
    - What Skyfield, requests and Streamlit do is not code of this repository:
      Skyfield is the interface [Skyfield], the network is an input of
      [fetch_tle], and Streamlit calls are recorded in a list of [widget]s. *)

From Stdlib Require Import ZArith Lia Bool List String Ascii Sorted.
From Stdlib Require Import DecimalString.
From Stdlib Require Import Floats.PrimFloat Floats.SpecFloat Floats.FloatOps.
From Stdlib Require Import Floats.FloatAxioms.
Import ListNotations.

Set Warnings "-inexact-float".

Local Open Scope string_scope.
Local Open Scope Z_scope.

(** ** Exceptions and fallible computations *)

Inductive exn : Type :=
| RequestException (msg : string)  (* requests' RequestException and its subclasses *)
| IndexError
| StreamlitAPIException.           (* of st.map, for data it does not take *)

Definition result (A : Type) : Type := (exn + A)%type.

Definition ret {A : Type} (a : A) : result A := inr a.
Definition raise {A : Type} (e : exn) : result A := inl e.

Definition bind {A B : Type} (m : result A) (k : A -> result B) : result B :=
  match m with
  | inl e => inl e
  | inr a => k a
  end.

Notation "x <- m ;; k" := (bind m (fun x => k))
  (at level 61, m at next level, right associativity).

(** ** Python sequences *)

Module Py.

(** [len(l)] *)
Definition len {A : Type} (l : list A) : Z := Z.of_nat (List.length l).

(** [l[i]]: a negative index counts from the end; outside [-len, len) the
    access raises [IndexError]. *)
Definition getitem {A : Type} (l : list A) (i : Z) : result A :=
  let j := if i <? 0 then i + len l else i in
  if (0 <=? j) && (j <? len l) then
    match nth_error l (Z.to_nat j) with
    | Some a => ret a
    | None => raise IndexError
    end
  else raise IndexError.

Fixpoint range_from (start step : Z) (n : nat) : list Z :=
  match n with
  | O => []
  | S n' => start :: range_from (start + step) step n'
  end.

(** [range(start, stop, step)] for a positive [step]. *)
Definition range (start stop step : Z) : list Z :=
  range_from start step (Z.to_nat ((stop - start + step - 1) / step)).

(** [for i in idx: acc = body(i, acc)], stopping at the first exception. *)
Fixpoint for_each {A S : Type} (idx : list A) (body : A -> S -> result S)
         (acc : S) : result S :=
  match idx with
  | [] => ret acc
  | i :: rest => acc' <- body i acc ;; for_each rest body acc'
  end.

(** Truth value of [None] or a [str], as [all] and [if] see it. *)
Definition truthy (v : option string) : bool :=
  match v with
  | None => false
  | Some "" => false
  | Some _ => true
  end.

(** [all(l)] *)
Definition all (l : list (option string)) : bool := forallb truthy l.

(** *** Strings *)

Definition CR : ascii := ascii_of_nat 13.
Definition LF : ascii := ascii_of_nat 10.
Definition CRLF : string := String CR (String LF "").

(** [c.isspace()] on the code points below 256. *)
Definition isspace (c : ascii) : bool :=
  let n := nat_of_ascii c in
  ((9 <=? n) && (n <=? 13) || (28 <=? n) && (n <=? 32) ||
   (n =? 133) || (n =? 160))%nat.

Fixpoint lstrip (s : string) : string :=
  match s with
  | "" => ""
  | String c s' => if isspace c then lstrip s' else s
  end.

Fixpoint rstrip (s : string) : string :=
  match s with
  | "" => ""
  | String c s' =>
      match rstrip s' with
      | "" => if isspace c then "" else String c ""
      | r => String c r
      end
  end.

(** [s.strip()] *)
Definition strip (s : string) : string := rstrip (lstrip s).

(** [s.split('\r\n')]: the pieces between the occurrences of CR LF, found
    from the left; there is always at least one piece. *)
Fixpoint split_crlf (s : string) : list string :=
  match s with
  | "" => [""]
  | String c s' =>
      match s' with
      | String d s'' =>
          if (Ascii.eqb c CR && Ascii.eqb d LF)%bool then "" :: split_crlf s''
          else match split_crlf s' with
               | piece :: pieces => String c piece :: pieces
               | [] => [String c ""]
               end
      | "" => [String c ""]
      end
  end.

(** *** Fixed-point rendering of floats: [f"{x:.pf}"] *)

Definition str_of_Z (n : Z) : string := NilZero.string_of_uint (N.to_uint (Z.to_N n)).

Fixpoint zeros (n : nat) : string :=
  match n with
  | O => ""
  | S n' => String "0" (zeros n')
  end.

(** [num / den] rounded to the nearest integer, ties to the even one
    ([0 <= num], [0 < den]). *)
Definition round_half_even (num den : Z) : Z :=
  let q := num / den in
  match 2 * (num mod den) ?= den with
  | Lt => q
  | Gt => q + 1
  | Eq => if Z.even q then q else q + 1
  end.

(** [m * 2^e * 10^p], rounded to an integer. *)
Definition scaled (p : nat) (m : positive) (e : Z) : Z :=
  let num := Z.pos m * 10 ^ Z.of_nat p in
  if 0 <=? e then num * 2 ^ e else round_half_even num (2 ^ (- e)).

(** The digits of [n / 10^p] with [p] decimals. *)
Definition fixed (p : nat) (n : Z) : string :=
  let whole := str_of_Z (n / 10 ^ Z.of_nat p) in
  match p with
  | O => whole
  | _ =>
      let frac := str_of_Z (n mod 10 ^ Z.of_nat p) in
      whole ++ "." ++ zeros (p - String.length frac) ++ frac
  end.

Definition sign_str (negative : bool) : string := if negative then "-" else "".

(** [f"{x:.pf}"] for the value [x] given as a [spec_float]: the decimal
    expansion of the exact binary value, correctly rounded. *)
Definition format_spec (p : nat) (x : spec_float) : string :=
  match x with
  | S754_nan => "nan"
  | S754_infinity s => sign_str s ++ "inf"
  | S754_zero s => sign_str s ++ fixed p 0
  | S754_finite s m e => sign_str s ++ fixed p (scaled p m e)
  end.

Definition format_f (p : nat) (x : float) : string := format_spec p (Prim2SF x).

End Py.

(** ** The collaborators *)

(** *** Skyfield

    The part of the propagation library the script calls.  [find_events]
    returns the instants and, in a second array, their codes: 0 for a rise,
    1 for a culmination and 2 for a set. *)
Class Skyfield : Type := {
  Time : Type;
  Satellite : Type;
  Observer : Type;
  (** [EarthSatellite(line1, line2, name, ts)] *)
  EarthSatellite : string -> string -> string -> Satellite;
  (** [Topos(latitude_degrees=.., longitude_degrees=..)] *)
  Topos : float -> float -> Observer;
  (** [ts.from_datetime(t.utc_datetime() + timedelta(days=n))] *)
  after_days : Time -> Z -> Time;
  (** [sat.find_events(observer, t0, t1, altitude_degrees=..)] *)
  find_events : Satellite -> Observer -> Time -> Time -> float -> list Time * list Z;
  (** [(sat - observer).at(t).altaz()], altitude and azimuth in degrees *)
  altaz : Satellite -> Observer -> Time -> float * float;
  (** [sat.at(t).subpoint()]: latitude and longitude in degrees, elevation in km *)
  subpoint : Satellite -> Time -> float * float * float;
  (** [t2 - t1], in days *)
  time_sub : Time -> Time -> float;
  (** [t.utc_strftime(format)] *)
  utc_strftime : Time -> string -> string;
}.

(** *** requests *)

Record response : Type := {
  status_code : Z;
  reason : string;
  url : string;
  text : string;
}.

(** What [requests.get(tle_url, timeout=10)] does: it raises a
    [RequestException] (connection error, timeout, ...) whose text is [msg],
    or returns a response. *)
Inductive http : Type :=
| Failed (msg : string)
| Replied (r : response).

Definition requests_get (net : http) : result response :=
  match net with
  | Failed msg => raise (RequestException msg)
  | Replied r => ret r
  end.

(** [response.raise_for_status()]: an [HTTPError] for the 4xx and 5xx codes. *)
Definition raise_for_status (r : response) : result unit :=
  let describe kind :=
    Py.str_of_Z (status_code r) ++ kind ++ reason r ++ " for url: " ++ url r in
  if (400 <=? status_code r) && (status_code r <? 500) then
    raise (RequestException (describe " Client Error: "))
  else if (500 <=? status_code r) && (status_code r <? 600) then
    raise (RequestException (describe " Server Error: "))
  else ret tt.

(** *** Streamlit *)

(** A row of the table of passes, with the columns "Rise Time (UTC)",
    "Max Altitude", "Direction" and "Duration (min)". *)
Record pass_row : Type := {
  rise_time_utc : string;
  max_altitude : string;
  direction : string;
  duration_min : string;
}.

(** The calls the script makes to Streamlit, in the order it makes them. *)
Inductive widget : Type :=
| st_set_page_config (page_title : string)
| st_markdown (body : string)
| st_title (body : string)
| st_header (body : string)
| st_error (body : string)
| st_columns (n : Z)
| st_metric (label value : string)
| st_map (lat lon : float) (zoom : Z)
| st_caption (body : string)
| st_selectbox (label : string)
| st_dataframe (rows : list pass_row)
| st_info (body : string).

(** How a run of the script ends. *)
Inductive outcome : Type :=
| Finished
| Stopped               (* st.stop() *)
| Uncaught (e : exn).

(** ** The functions of [app.py] *)

Definition tle : Type := (option string * option string * option string)%type.

(** [fetch_tle()], given what the network does; the first component is what
    it shows on the page.  The cache that Streamlit keeps around the function
    for an hour is left out: this is the function that runs when the cache
    holds nothing. *)
Definition fetch_tle (net : http) : list widget * result tle :=
  let attempt : result tle :=
    response <- requests_get net ;;
    _ <- raise_for_status response ;;
    let tle_data := Py.split_crlf (Py.strip (text response)) in
    name <- Py.getitem tle_data 0 ;;
    line1 <- Py.getitem tle_data 1 ;;
    line2 <- Py.getitem tle_data 2 ;;
    ret (Some name, Some line1, Some line2) in
  match attempt with
  | inl (RequestException e) =>
      ([st_error ("Error fetching TLE data: " ++ e)], ret (None, None, None))
  | _ => ([], attempt)
  end.

Definition tle_url : string :=
  "https://celestrak.org/NORAD/elements/gp.php?NAME=ISS%20(ZARYA)&FORMAT=TLE".

(** The fetch fails: the request raises, or the status is one for which
    [raise_for_status] raises. *)
Definition fetch_fails (net : http) : bool :=
  match net with
  | Failed _ => true
  | Replied r => (400 <=? status_code r) && (status_code r <? 600)
  end.

(** The first three lines of a body as the specification words it: the body
    itself is split on CR LF and its first three pieces are taken as they
    are. *)
Definition first_three_lines_verbatim (body : string)
  : option (string * string * string) :=
  match Py.split_crlf body with
  | name :: line1 :: line2 :: _ => Some (name, line1, line2)
  | _ => None
  end.

Definition degree_sign : string := String (ascii_of_nat 176) "".

Section Passes.

Context {sky : Skyfield}.

(** The body of the loop of [calculate_passes] for the index [i]. *)
Definition pass_at (iss : Satellite) (observer_location : Observer)
           (times : list Time) (events : list Z)
           (i : Z) (pass_data : list pass_row) : result (list pass_row) :=
  ordered <-
    (e0 <- Py.getitem events i ;;
     if e0 =? 0 then
       e1 <- Py.getitem events (i + 1) ;;
       if e1 =? 1 then
         e2 <- Py.getitem events (i + 2) ;;
         ret (e2 =? 2)
       else ret false
     else ret false) ;;
  if negb ordered then ret pass_data
  else
    rise_time <- Py.getitem times i ;;
    culminate_time <- Py.getitem times (i + 1) ;;
    set_time <- Py.getitem times (i + 2) ;;
    let '(alt, az) := altaz iss observer_location culminate_time in
    let duration := (time_sub set_time rise_time * 24 * 60)%float in
    ret (pass_data ++
         [{| rise_time_utc := utc_strftime rise_time "%Y-%m-%d %H:%M";
             max_altitude := Py.format_f 1 alt ++ degree_sign;
             direction := Py.format_f 1 az ++ degree_sign;
             duration_min := Py.format_f 1 duration |}])%list.

(** The loop of [calculate_passes] over the events found. *)
Definition group_events (iss : Satellite) (observer_location : Observer)
           (times : list Time) (events : list Z) : result (list pass_row) :=
  Py.for_each (Py.range 0 (Py.len events - 2) 3)
              (pass_at iss observer_location times events) [].

(** [calculate_passes(iss, ts, latitude, longitude)], where [now] is what
    [ts.now()] returns; the data frame is the list of its rows. *)
Definition calculate_passes (iss : Satellite) (now : Time)
           (latitude longitude : float) : result (list pass_row) :=
  let observer_location := Topos latitude longitude in
  let t0 := now in
  let t1 := after_days t0 5 in
  let '(times, events) := find_events iss observer_location t0 t1 10 in
  group_events iss observer_location times events.

End Passes.

(** ** The script *)

Inductive city : Type :=
| Rourkela | New_Delhi | Mumbai | London | New_York | Tokyo | Sydney.

(** The columns of [locations_data]. *)
Definition city_name (c : city) : string :=
  match c with
  | Rourkela => "Rourkela" | New_Delhi => "New Delhi" | Mumbai => "Mumbai"
  | London => "London" | New_York => "New York" | Tokyo => "Tokyo"
  | Sydney => "Sydney"
  end.

Definition city_latitude (c : city) : float :=
  match c with
  | Rourkela => 22.2604 | New_Delhi => 28.6139 | Mumbai => 19.0760
  | London => 51.5072 | New_York => 40.7128 | Tokyo => 35.6895
  | Sydney => -33.8688
  end.

Definition city_longitude (c : city) : float :=
  match c with
  | Rourkela => 84.8536 | New_Delhi => 77.2090 | Mumbai => 72.8777
  | London => -0.1276 | New_York => -74.0060 | Tokyo => 139.6917
  | Sydney => 151.2093
  end.

Definition hide_streamlit_style : string :=
"
            <style>
            #MainMenu {visibility: hidden;}
            footer {visibility: hidden;}
            </style>
            ".

(** What the script shows before it fetches anything (lines 10 to 70). *)
Definition page_top : list widget :=
  [ st_set_page_config "ISS Real-Time Tracker";
    st_markdown hide_streamlit_style;
    st_title "ISS Real-Time Tracker & Pass Predictor" ].

Definition str_or_empty (v : option string) : string :=
  match v with
  | Some s => s
  | None => ""
  end.

Section Script.

Context {sky : Skyfield}.

(** [st.map(map_data, zoom=2)] raises a [StreamlitAPIException] when a
    latitude or a longitude of its data is null, which for a float is NaN. *)
Definition st_map_rejects (lat lon : float) : bool := is_nan lat || is_nan lon.

(** Everything after the check of the fetched lines (lines 77 to 129). *)
Definition dashboard (iss_name iss_l1 iss_l2 : string)
           (now_live now_passes : Time) (selected_city : city)
  : list widget * outcome :=
  let iss := EarthSatellite iss_l1 iss_l2 iss_name in
  let '(lat, lon, alt_km) := subpoint iss now_live in
  let metrics :=
    [ st_header "Live Location";
      st_columns 3;
      st_metric "Latitude" (Py.format_f 4 lat ++ degree_sign);
      st_metric "Longitude" (Py.format_f 4 lon ++ degree_sign);
      st_metric "Altitude" (Py.format_f 2 alt_km ++ " km") ] in
  if st_map_rejects lat lon then (metrics, Uncaught StreamlitAPIException)
  else
    let live :=
      (metrics ++
       [ st_map lat lon 2;
         st_caption "Map automatically updates based on the latest position from TLE data.";
         st_header " Pass Predictor";
         st_selectbox "Select a city to predict visible passes:" ])%list in
    let selected_lat := city_latitude selected_city in
    let selected_lon := city_longitude selected_city in
    match calculate_passes iss now_passes selected_lat selected_lon with
    | inl e => (live, Uncaught e)
    | inr pass_df =>
        match pass_df with
        | _ :: _ => (live ++ [st_dataframe pass_df], Finished)%list
        | [] =>
            (live ++ [st_info ("No visible ISS passes found for " ++
                               city_name selected_city ++ " in the next 5 days.")],
             Finished)%list
        end
    end.

(** The script from top to bottom: [net] is what the network does,
    [now_live] and [now_passes] are the two readings of [ts.now()], and
    [selected_city] is the choice in the drop-down. *)
Definition main (net : http) (now_live now_passes : Time)
           (selected_city : city) : list widget * outcome :=
  let '(shown, fetched) := fetch_tle net in
  match fetched with
  | inl e => (page_top ++ shown, Uncaught e)%list
  | inr (iss_name, iss_l1, iss_l2) =>
      if negb (Py.all [iss_name; iss_l1; iss_l2]) then
        (page_top ++ shown, Stopped)%list
      else
        let '(rest, how) :=
          dashboard (str_or_empty iss_name) (str_or_empty iss_l1)
                    (str_or_empty iss_l2) now_live now_passes selected_city in
        (page_top ++ shown ++ rest, how)%list
  end.

(** The calls that belong to the pipeline behind the fetch: the live
    position, the map, the drop-down and the table of passes. *)
Definition behind_fetch (w : widget) : bool :=
  match w with
  | st_header _ | st_columns _ | st_metric _ _ | st_map _ _ _ | st_caption _
  | st_selectbox _ | st_dataframe _ | st_info _ => true
  | st_set_page_config _ | st_markdown _ | st_title _ | st_error _ => false
  end.

End Script.

(** ** Reading the loop of [calculate_passes] as a function on lists *)

(** The codes of a rise, a culmination and a set, in this order. *)
Definition in_order (e0 e1 e2 : Z) : bool := (e0 =? 0) && (e1 =? 1) && (e2 =? 2).

(** The events cut into consecutive triples, a shorter rest left out; the
    triples whose codes are in order keep their three instants. *)
Fixpoint accepted {T : Type} (times : list T) (events : list Z) {struct events}
  : list (T * T * T) :=
  match events, times with
  | e0 :: e1 :: e2 :: events', t0 :: t1 :: t2 :: times' =>
      if in_order e0 e1 e2 then (t0, t1, t2) :: accepted times' events'
      else accepted times' events'
  | _, _ => []
  end.

(** The codes 0, 1, 2 repeated [k] times. *)
Fixpoint rise_culminate_set (k : nat) : list Z :=
  match k with
  | O => []
  | S k' => 0 :: 1 :: 2 :: rise_culminate_set k'
  end.

(** The codes of the [j]-th triple are those of a rise, a culmination and a
    set. *)
Definition nth_triple_in_order (events : list Z) (j : nat) : Prop :=
  nth_error events (3 * j) = Some 0 /\
  nth_error events (3 * j + 1) = Some 1 /\
  nth_error events (3 * j + 2) = Some 2.

(** The instants of the [j]-th triple. *)
Definition nth_triple {T : Type} (times : list T) (j : nat) (p : T * T * T) : Prop :=
  nth_error times (3 * j) = Some (fst (fst p)) /\
  nth_error times (3 * j + 1) = Some (snd (fst p)) /\
  nth_error times (3 * j + 2) = Some (snd p).

Definition instants {T : Type} (p : T * T * T) : list T :=
  let '(rise, culminate, set) := p in [rise; culminate; set].

Section Rows.

Context {sky : Skyfield}.

(** The row that the loop appends for a pass. *)
Definition row_of (iss : Satellite) (observer_location : Observer)
           (p : Time * Time * Time) : pass_row :=
  let '(rise_time, culminate_time, set_time) := p in
  {| rise_time_utc := utc_strftime rise_time "%Y-%m-%d %H:%M";
     max_altitude :=
       Py.format_f 1 (fst (altaz iss observer_location culminate_time)) ++ degree_sign;
     direction :=
       Py.format_f 1 (snd (altaz iss observer_location culminate_time)) ++ degree_sign;
     duration_min := Py.format_f 1 (time_sub set_time rise_time * 24 * 60)%float |}.

(** What [find_events] reports to [calculate_passes] for the five days after
    [now]. *)
Definition events_found (iss : Satellite) (now : Time)
           (latitude longitude : float) : list Time * list Z :=
  find_events iss (Topos latitude longitude) now (after_days now 5) 10.

End Rows.

(** The duration as the product of the days with 1440, in one binary64
    multiplication, with one decimal. *)
Definition minutes_1440 (days : float) : string := Py.format_f 1 (days * 1440)%float.

(** The exact product of a binary64 value with a positive integer. *)
Definition scale_spec (n : positive) (x : spec_float) : spec_float :=
  match x with
  | S754_finite s m e => S754_finite s (m * n) e
  | other => other
  end.

(** The duration as the exact product of the days with 1440, rounded once,
    to one decimal. *)
Definition minutes_exact (days : float) : string :=
  Py.format_spec 1 (scale_spec 1440 (Prim2SF days)).

(** ** A stub propagator

    Instants are floats (days), a satellite is the pair of arrays that
    [find_events] reports for it, an instant is printed with four decimals,
    and every angle is zero. *)
Module Stub.

#[local] Instance sky : Skyfield := {|
  Time := float;
  Satellite := list float * list Z;
  Observer := float * float;
  EarthSatellite := fun _ _ _ => ([], []);
  Topos := fun lat lon => (lat, lon);
  after_days := fun t n => t;
  find_events := fun sat _ _ _ _ => sat;
  altaz := fun _ _ _ => (0, 0)%float;
  subpoint := fun _ _ => (0, 0, 0)%float;
  time_sub := fun t2 t1 => (t2 - t1)%float;
  utc_strftime := fun t _ => Py.format_f 4 t;
|}.

(** The observer of the examples: the first city of the list. *)
Definition lat : float := city_latitude Rourkela.
Definition lon : float := city_longitude Rourkela.

(** The stub at work for this observer, with the clock at day 0. *)
Definition found (iss : Satellite) : list Time * list Z :=
  events_found iss 0%float lat lon.

Definition passes (iss : Satellite) : result (list pass_row) :=
  calculate_passes iss 0%float lat lon.

Definition group (iss : Satellite) (times : list Time) (events : list Z)
  : result (list pass_row) :=
  group_events iss (Topos lat lon) times events.

(** Two passes of five to six minutes, an hour and a half apart. *)
Definition six_instants : list float :=
  [0.25; 0.251953125; 0.25390625; 0.3125; 0.314453125; 0.31640625]%float.

(** A pass whose set comes [0x1.70a3d70a3d70ap-9] days (the binary64 value
    next to 0.0028125 days, 4.05 minutes) after its rise. *)
Definition short_pass : list float := [0; 0.001; 0x1.70a3d70a3d70ap-9]%float.

(** The row of the stub for a pass. *)
Definition row (rise duration : string) : pass_row :=
  {| rise_time_utc := rise;
     max_altitude := "0.0" ++ degree_sign;
     direction := "0.0" ++ degree_sign;
     duration_min := duration |}.

(** A reply of CelesTrak with the status 200 and the given body. *)
Definition ok_reply (body : string) : response :=
  {| status_code := 200; reason := "OK"; url := tle_url; text := body |}.

Definition not_found : response :=
  {| status_code := 404; reason := "Not Found"; url := tle_url; text := "" |}.

Definition iss_elements : string :=
  "ISS (ZARYA)             " ++ Py.CRLF ++
  "1 25544U 98067A   24001.50000000  .00016717  00000+0  30000-3 0  9993" ++ Py.CRLF ++
  "2 25544  51.6400 100.0000 0005000  90.0000 270.0000 15.50000000400000" ++ Py.CRLF.

End Stub.

(** ** The loop on arrays of any lengths *)

(** The loop of [calculate_passes] read on lists when the instants and the
    codes need not be as many: the codes alone decide whether a group of
    three is accepted, and an accepted group needs its three instants. *)
Fixpoint grouped {T : Type} (times : list T) (events : list Z) {struct events}
  : result (list (T * T * T)) :=
  match events with
  | e0 :: e1 :: e2 :: events' =>
      if in_order e0 e1 e2 then
        match times with
        | t0 :: t1 :: t2 :: _ =>
            rest <- grouped (skipn 3 times) events' ;;
            ret ((t0, t1, t2) :: rest)
        | _ => raise IndexError
        end
      else grouped (skipn 3 times) events'
  | _ => ret []
  end.

(** ** What the page shows *)

Definition is_st_error (w : widget) : bool :=
  match w with
  | st_error _ => true
  | _ => false
  end.

(** The table of passes or the note that stands for it. *)
Definition is_closing (w : widget) : bool :=
  match w with
  | st_dataframe _ | st_info _ => true
  | _ => false
  end.

(** The note of line 129 for a city. *)
Definition no_passes_note (c : city) : widget :=
  st_info ("No visible ISS passes found for " ++ city_name c ++
           " in the next 5 days.").

Definition starts_with_space (s : string) : bool :=
  match s with
  | String c _ => Py.isspace c
  | "" => false
  end.

(** White space only. *)
Fixpoint all_space (s : string) : bool :=
  match s with
  | "" => true
  | String c s' => Py.isspace c && all_space s'
  end.

(** The same reply with another body. *)
Definition with_text (r : response) (body : string) : response :=
  {| status_code := status_code r; reason := reason r; url := url r;
     text := body |}.

(** ** Days on the grid of the Julian dates *)

(** The binary64 value [k * 2^g] with the sign [s], for a positive integer
    [k] of at most 53 bits: the mantissa is [k] moved up to 53 bits. *)
Definition grid_float (s : bool) (k : positive) (g : Z) : spec_float :=
  let j := (53 - Pos.to_nat (digits2_pos k))%nat in
  S754_finite s (Pos.shiftl_nat k j) (g - Z.of_nat j).

(** A number of days that is a whole multiple of [2^-31] and smaller than
    [2^16] in size.  A Julian date of our time lies between [2^21] and
    [2^22], so as a binary64 value it is a multiple of [2^-31], and so is
    the difference of two of them. *)
Definition on_grid (days : float) : Prop :=
  (exists s : bool, Prim2SF days = S754_zero s) \/
  (exists (s : bool) (k : positive),
     Prim2SF days = grid_float s k (-31) /\ Z.pos k < 2 ^ 47).

(** ** More stubs *)
Module Cases.

(** The stub propagator, for a satellite that is seen twice. *)
#[local] Instance seen_twice : Skyfield := {|
  Time := float;
  Satellite := list float * list Z;
  Observer := float * float;
  EarthSatellite := fun _ _ _ => (Stub.six_instants, [0; 1; 2; 0; 1; 2]);
  Topos := fun lat lon => (lat, lon);
  after_days := fun t n => t;
  find_events := fun sat _ _ _ _ => sat;
  altaz := fun _ _ _ => (0, 0)%float;
  subpoint := fun _ _ => (0, 0, 0)%float;
  time_sub := fun t2 t1 => (t2 - t1)%float;
  utc_strftime := fun t _ => Py.format_f 4 t;
|}.


(** A pass on 2024-01-01, as Julian dates: the set comes [6039798 * 2^-31]
    days (4.05 minutes) after the rise. *)
Definition julian_pass : list float :=
  [2460311.5; 2460311.5 + 0.0014; 2460311.5 + 0.0028125]%float.

(** A reply whose second line is empty. *)
Definition gap_reply : response :=
  Stub.ok_reply ("ISS (ZARYA)" ++ Py.CRLF ++ Py.CRLF ++ "2 25544  51.6400").

End Cases.

(** ** Checks of the Python operations *)

Example format_examples :
  Py.format_f 1 2.25%float = "2.2" /\ Py.format_f 1 (-0.04)%float = "-0.0" /\
  Py.format_f 1 9.96%float = "10.0" /\ Py.format_f 4 22.2604%float = "22.2604" /\
  Py.format_f 2 408.005%float = "408.00" /\ Py.format_f 1 (0.5 * 1440)%float = "720.0" /\
  Py.format_f 4 (-0.1276)%float = "-0.1276" /\
  Py.format_f 1 1e22%float = "10000000000000000000000.0".
Proof. vm_compute. repeat split. Qed.

Example split_examples :
  Py.split_crlf (Py.strip (" a" ++ Py.CRLF ++ "b " ++ Py.CRLF ++ "c" ++ Py.CRLF))
  = ["a"; "b "; "c"] /\
  Py.split_crlf "" = [""] /\
  Py.split_crlf (Py.CRLF ++ Py.CRLF) = [""; ""; ""] /\
  Py.range 0 (Py.len [0; 1; 2; 0; 1; 2; 0] - 2) 3 = [0; 3] /\
  Py.range 0 (Py.len [0] - 2) 3 = [].
Proof. vm_compute. repeat split. Qed.

(** ** Indexing and ranges *)

Lemma list_ind3 {A : Type} (P : list A -> Prop) :
  P [] -> (forall a, P [a]) -> (forall a b, P [a; b]) ->
  (forall a b c l, P l -> P (a :: b :: c :: l)) ->
  forall l, P l.
Proof.
  intros H0 H1 H2 H3.
  fix IH 1.
  intros [|a [|b [|c l]]];
    [apply H0 | apply H1 | apply H2 | apply H3, IH].
Qed.

Lemma getitem_nth {A : Type} (l : list A) (n : nat) (a : A) :
  nth_error l n = Some a -> Py.getitem l (Z.of_nat n) = ret a.
Proof.
  intros H. unfold Py.getitem, Py.len.
  assert (n < List.length l)%nat by (apply nth_error_Some; congruence).
  destruct (Z.ltb_spec (Z.of_nat n) 0); [lia|].
  destruct (Z.leb_spec 0 (Z.of_nat n)); [|lia].
  destruct (Z.ltb_spec (Z.of_nat n) (Z.of_nat (List.length l))); [|lia].
  cbn. now rewrite Nat2Z.id, H.
Qed.

Lemma getitem_0 {A : Type} (a : A) (l : list A) : Py.getitem (a :: l) 0 = ret a.
Proof. exact (getitem_nth (a :: l) 0 a eq_refl). Qed.

Lemma getitem_1 {A : Type} (a b : A) (l : list A) :
  Py.getitem (a :: b :: l) 1 = ret b.
Proof. exact (getitem_nth (a :: b :: l) 1 b eq_refl). Qed.

Lemma getitem_2 {A : Type} (a b c : A) (l : list A) :
  Py.getitem (a :: b :: c :: l) 2 = ret c.
Proof. exact (getitem_nth (a :: b :: c :: l) 2 c eq_refl). Qed.

Lemma getitem_shift3 {A : Type} (a b c : A) (l : list A) (i : Z) :
  0 <= i -> Py.getitem (a :: b :: c :: l) (i + 3) = Py.getitem l i.
Proof.
  intros Hi. unfold Py.getitem, Py.len. cbn [List.length].
  destruct (Z.ltb_spec (i + 3) 0); [lia|].
  destruct (Z.ltb_spec i 0); [lia|].
  replace (Z.to_nat (i + 3)) with (S (S (S (Z.to_nat i)))) by lia.
  cbn [nth_error].
  destruct (Z.leb_spec 0 (i + 3)); [|lia].
  destruct (Z.leb_spec 0 i); [|lia].
  destruct (Z.ltb_spec (i + 3) (Z.of_nat (S (S (S (List.length l))))));
    destruct (Z.ltb_spec i (Z.of_nat (List.length l))); try lia; reflexivity.
Qed.

Lemma range_thirds (n : nat) :
  Py.range 0 (Z.of_nat n - 2) 3 = Py.range_from 0 3 (n / 3).
Proof.
  unfold Py.range. f_equal.
  replace (Z.of_nat n - 2 - 0 + 3 - 1) with (Z.of_nat n) by lia.
  change 3 with (Z.of_nat 3). now rewrite <- Nat2Z.inj_div, Nat2Z.id.
Qed.

Lemma thirds_step (n : nat) : (S (S (S n)) / 3 = S (n / 3))%nat.
Proof.
  change (S (S (S n))) with (3 + n)%nat.
  replace (3 + n)%nat with (n + 1 * 3)%nat by lia.
  rewrite Nat.div_add by lia. lia.
Qed.

Lemma range_from_multiples (n : nat) (start : Z) :
  Py.range_from start 3 n = map (fun j => start + 3 * Z.of_nat j) (seq 0 n).
Proof.
  revert start. induction n as [|n IH]; intros start; [reflexivity|].
  cbn [Py.range_from seq map]. f_equal; [lia|].
  rewrite IH, <- seq_shift, map_map. apply map_ext. intros j. lia.
Qed.

(** ** The loop of [calculate_passes] *)

Section Loop.

Context {sky : Skyfield}.
Variables (iss : Satellite) (observer_location : Observer).

Lemma pass_at_shift3 (t0 t1 t2 : Time) (times : list Time) (e0 e1 e2 : Z)
      (events : list Z) (i : Z) (pass_data : list pass_row) :
  0 <= i ->
  pass_at iss observer_location (t0 :: t1 :: t2 :: times)
          (e0 :: e1 :: e2 :: events) (i + 3) pass_data
  = pass_at iss observer_location times events i pass_data.
Proof.
  intros Hi. unfold pass_at.
  replace (i + 3 + 1) with (i + 1 + 3) by lia.
  replace (i + 3 + 2) with (i + 2 + 3) by lia.
  rewrite !getitem_shift3 by lia. reflexivity.
Qed.

Lemma for_each_shift3 (t0 t1 t2 : Time) (times : list Time) (e0 e1 e2 : Z)
      (events : list Z) (n : nat) :
  forall (start : Z) (pass_data : list pass_row),
  0 <= start ->
  Py.for_each (Py.range_from (start + 3) 3 n)
    (pass_at iss observer_location (t0 :: t1 :: t2 :: times)
             (e0 :: e1 :: e2 :: events)) pass_data
  = Py.for_each (Py.range_from start 3 n)
      (pass_at iss observer_location times events) pass_data.
Proof.
  induction n as [|n IH]; intros start pass_data Hs; [reflexivity|].
  cbn [Py.range_from Py.for_each].
  rewrite pass_at_shift3 by lia.
  destruct (pass_at iss observer_location times events start pass_data);
    cbn [bind]; [reflexivity|].
  apply IH. lia.
Qed.

(** The first turn of the loop on at least three events. *)
Lemma pass_at_first (t0 t1 t2 : Time) (times : list Time) (e0 e1 e2 : Z)
      (events : list Z) (pass_data : list pass_row) :
  pass_at iss observer_location (t0 :: t1 :: t2 :: times)
          (e0 :: e1 :: e2 :: events) 0 pass_data
  = ret (pass_data ++
         if in_order e0 e1 e2
         then [row_of iss observer_location (t0, t1, t2)] else [])%list.
Proof.
  unfold pass_at, in_order.
  change (0 + 1) with 1. change (0 + 2) with 2.
  rewrite !getitem_0, !getitem_1, !getitem_2. cbn [bind ret].
  destruct (e0 =? 0); cbn [andb negb bind ret]; [|now rewrite app_nil_r].
  destruct (e1 =? 1); cbn [andb negb bind ret]; [|now rewrite app_nil_r].
  destruct (e2 =? 2); cbn [andb negb bind ret]; [|now rewrite app_nil_r].
  cbn [bind ret row_of].
  destruct (altaz iss observer_location t1) as [alt az]. reflexivity.
Qed.

(** The loop appends one row for each accepted triple, in the order of the
    events, and raises nothing. *)
Lemma loop_accepted (events : list Z) :
  forall (times : list Time) (pass_data : list pass_row),
  List.length times = List.length events ->
  Py.for_each (Py.range 0 (Py.len events - 2) 3)
    (pass_at iss observer_location times events) pass_data
  = ret (pass_data ++ map (row_of iss observer_location) (accepted times events))%list.
Proof.
  unfold Py.len. induction events as [|e0|e0 e1|e0 e1 e2 events IH] using list_ind3;
    intros times pass_data Hlen.
  - cbn. now rewrite app_nil_r.
  - cbn. now rewrite app_nil_r.
  - cbn. now rewrite app_nil_r.
  - destruct times as [|t0 [|t1 [|t2 times]]]; try discriminate Hlen.
    cbn [List.length] in *. rewrite range_thirds, thirds_step.
    cbn [Py.range_from Py.for_each]. rewrite pass_at_first. cbn [bind ret].
    change (0 + 3) with 3 at 1.
    rewrite (for_each_shift3 t0 t1 t2 times e0 e1 e2 events _ 0) by lia.
    rewrite <- range_thirds, IH by lia.
    cbn [accepted]. destruct (in_order e0 e1 e2); cbn [map].
    + now rewrite <- app_assoc.
    + now rewrite app_nil_r.
Qed.

Lemma group_events_accepted (times : list Time) (events : list Z) :
  List.length times = List.length events ->
  group_events iss observer_location times events
  = ret (map (row_of iss observer_location) (accepted times events)).
Proof.
  intros Hlen. unfold group_events. now rewrite loop_accepted.
Qed.

End Loop.

(** ** The accepted triples *)

Section Accepted.

Context {T : Type}.

Lemma in_order_true (e0 e1 e2 : Z) :
  in_order e0 e1 e2 = true <-> (e0, e1, e2) = (0, 1, 2).
Proof.
  unfold in_order. rewrite !andb_true_iff, !Z.eqb_eq. split.
  - intros [[-> ->] ->]. reflexivity.
  - intros [= -> -> ->]. auto.
Qed.

Lemma nth_triple_next (A : Type) (a b c : A) (l : list A) (j : nat) :
  nth_error (a :: b :: c :: l) (3 * S j) = nth_error l (3 * j) /\
  nth_error (a :: b :: c :: l) (3 * S j + 1) = nth_error l (3 * j + 1) /\
  nth_error (a :: b :: c :: l) (3 * S j + 2) = nth_error l (3 * j + 2).
Proof.
  replace (3 * S j)%nat with (S (S (S (3 * j)))) by lia.
  repeat split; reflexivity.
Qed.

(** Every accepted triple is one of the triples at the indices 0, 3, 6, ...,
    and its codes are in order. *)
Lemma accepted_sound (events : list Z) :
  forall (times : list T) (p : T * T * T),
  In p (accepted times events) ->
  exists j, nth_triple_in_order events j /\ nth_triple times j p.
Proof.
  induction events as [|e0|e0 e1|e0 e1 e2 events IH] using list_ind3;
    intros times p Hin; try (destruct times as [|? [|? [|? ?]]]; contradiction).
  destruct times as [|t0 [|t1 [|t2 times]]]; try contradiction.
  cbn [accepted] in Hin.
  assert (Hrest : In p (accepted times events) ->
                  exists j, nth_triple_in_order (e0 :: e1 :: e2 :: events) j /\
                            nth_triple (t0 :: t1 :: t2 :: times) j p).
  { intros H. destruct (IH _ _ H) as (j & He & Ht). exists (S j).
    unfold nth_triple_in_order, nth_triple.
    destruct (nth_triple_next Z e0 e1 e2 events j) as (-> & -> & ->).
    destruct (nth_triple_next T t0 t1 t2 times j) as (-> & -> & ->).
    split; assumption. }
  destruct (in_order e0 e1 e2) eqn:Hord; [|auto].
  destruct Hin as [<-|Hin]; [|auto].
  apply in_order_true in Hord. injection Hord as -> -> ->.
  exists 0%nat. repeat split.
Qed.

(** Every triple at an index 0, 3, 6, ... whose codes are in order is
    accepted. *)
Lemma accepted_complete (events : list Z) :
  forall (times : list T) (j : nat) (p : T * T * T),
  nth_triple_in_order events j -> nth_triple times j p ->
  In p (accepted times events).
Proof.
  induction events as [|e0|e0 e1|e0 e1 e2 events IH] using list_ind3;
    intros times j p (H0 & H1 & H2) (G0 & G1 & G2).
  - destruct j; discriminate H0.
  - destruct j as [|j]; [discriminate H1|].
    replace (3 * S j)%nat with (S (S (S (3 * j)))) in H0 by lia. discriminate H0.
  - destruct j as [|j]; [discriminate H2|].
    replace (3 * S j)%nat with (S (S (S (3 * j)))) in H0 by lia. discriminate H0.
  - destruct times as [|t0 [|t1 [|t2 times]]].
    + destruct j; discriminate G0.
    + destruct j as [|j]; [discriminate G1|].
      replace (3 * S j)%nat with (S (S (S (3 * j)))) in G0 by lia. discriminate G0.
    + destruct j as [|j]; [discriminate G2|].
      replace (3 * S j)%nat with (S (S (S (3 * j)))) in G0 by lia. discriminate G0.
    + cbn [accepted]. destruct j as [|j].
      * cbn in H0, H1, H2, G0, G1, G2.
        injection H0 as ->. injection H1 as ->. injection H2 as ->.
        destruct p as [[r c] s]. cbn in G0, G1, G2.
        injection G0 as ->. injection G1 as ->. injection G2 as ->.
        cbn. left. reflexivity.
      * destruct (nth_triple_next Z e0 e1 e2 events j) as (E0 & E1 & E2).
        destruct (nth_triple_next T t0 t1 t2 times j) as (F0 & F1 & F2).
        rewrite E0 in H0. rewrite E1 in H1. rewrite E2 in H2.
        rewrite F0 in G0. rewrite F1 in G1. rewrite F2 in G2.
        assert (In p (accepted times events))
          by (apply (IH times j p); repeat split; assumption).
        destruct (in_order e0 e1 e2); [right|]; assumption.
Qed.

(** A group of three events that is out of order leaves no trace, and a
    group in order adds its triple between those before and after it. *)
Lemma accepted_app (pre_e : list Z) :
  forall (pre_t times : list T) (events : list Z),
  List.length pre_t = List.length pre_e ->
  (List.length pre_e mod 3 = 0)%nat ->
  accepted (pre_t ++ times) (pre_e ++ events)
  = (accepted pre_t pre_e ++ accepted times events)%list.
Proof.
  induction pre_e as [|e0|e0 e1|e0 e1 e2 pre_e IH] using list_ind3;
    intros pre_t times events Hlen Hmod; try discriminate Hmod.
  - destruct pre_t; [reflexivity|discriminate Hlen].
  - destruct pre_t as [|t0 [|t1 [|t2 pre_t]]]; try discriminate Hlen.
    cbn [List.length] in Hlen, Hmod.
    assert (Hmod' : (List.length pre_e mod 3 = 0)%nat).
    { replace (S (S (S (List.length pre_e)))) with (List.length pre_e + 1 * 3)%nat
        in Hmod by lia.
      now rewrite Nat.Div0.mod_add in Hmod. }
    cbn [app accepted]. rewrite IH by (assumption || lia).
    destruct (in_order e0 e1 e2); reflexivity.
Qed.

(** The events after the last complete group of three play no role. *)
Lemma accepted_firstn (events : list Z) :
  forall times : list T,
  accepted times events
  = accepted (firstn (3 * (List.length events / 3)) times)
             (firstn (3 * (List.length events / 3)) events).
Proof.
  induction events as [|e0|e0 e1|e0 e1 e2 events IH] using list_ind3;
    intros times; try (destruct times as [|? [|? [|? ?]]]; reflexivity).
  cbn [List.length]. rewrite thirds_step.
  replace (3 * S (List.length events / 3))%nat
    with (S (S (S (3 * (List.length events / 3))))) by lia.
  destruct times as [|t0 [|t1 [|t2 times]]]; try reflexivity.
  cbn [firstn accepted]. rewrite <- IH. reflexivity.
Qed.

(** The instants of the accepted triples are instants of the input. *)
Lemma accepted_instants_incl (events : list Z) :
  forall (times : list T) (x : T),
  In x (flat_map instants (accepted times events)) -> In x times.
Proof.
  induction events as [|e0|e0 e1|e0 e1 e2 events IH] using list_ind3;
    intros times x Hin; try (destruct times as [|? [|? [|? ?]]]; contradiction).
  destruct times as [|t0 [|t1 [|t2 times]]]; try contradiction.
  cbn [accepted] in Hin.
  destruct (in_order e0 e1 e2).
  - cbn in Hin. cbn. intuition auto.
  - cbn. right. right. right. auto.
Qed.

(** The accepted triples keep the order of the input. *)
Lemma accepted_sorted (le : T -> T -> Prop) (events : list Z) :
  forall times : list T,
  StronglySorted le times ->
  StronglySorted le (flat_map instants (accepted times events)).
Proof.
  induction events as [|e0|e0 e1|e0 e1 e2 events IH] using list_ind3;
    intros times Hs; try (destruct times as [|? [|? [|? ?]]]; constructor).
  destruct times as [|t0 [|t1 [|t2 times]]]; try constructor.
  cbn [accepted].
  apply StronglySorted_inv in Hs as [Hs H0].
  apply StronglySorted_inv in Hs as [Hs H1].
  apply StronglySorted_inv in Hs as [Hs H2].
  specialize (IH times Hs).
  destruct (in_order e0 e1 e2); [|exact IH].
  assert (Hsub : forall t, Forall (le t) times ->
                      Forall (le t) (flat_map instants (accepted times events))).
  { intros t Ht. rewrite Forall_forall in *. intros x Hx.
    apply Ht. eapply accepted_instants_incl; eassumption. }
  inversion H0 as [|? ? H01 H0']; subst. inversion H0' as [|? ? H02 H0'']; subst.
  inversion H1 as [|? ? H12 H1']; subst.
  cbn [flat_map instants app].
  repeat constructor; auto.
Qed.

(** When the codes are 0, 1, 2 over and over, every group is accepted. *)
Lemma accepted_rise_culminate_set (k : nat) :
  forall times : list T,
  List.length times = (3 * k)%nat ->
  List.length (accepted times (rise_culminate_set k)) = k /\
  forall (j : nat) (p : T * T * T),
    nth_triple times j p -> nth_error (accepted times (rise_culminate_set k)) j = Some p.
Proof.
  induction k as [|k IH]; intros times Hlen.
  - destruct times; [|discriminate Hlen]. split; [reflexivity|].
    intros j p (H0 & _). destruct j; discriminate H0.
  - replace (3 * S k)%nat with (S (S (S (3 * k)))) in Hlen by lia.
    destruct times as [|t0 [|t1 [|t2 times]]]; try discriminate Hlen.
    injection Hlen as Hlen. destruct (IH times Hlen) as [IHlen IHnth].
    cbn [rise_culminate_set accepted]. change (in_order 0 1 2) with true.
    cbv iota. split.
    + cbn [List.length]. now rewrite IHlen.
    + intros [|j] [[r c] s] (H0 & H1 & H2).
      * cbn in H0, H1, H2. injection H0 as ->. injection H1 as ->.
        injection H2 as ->. reflexivity.
      * destruct (nth_triple_next T t0 t1 t2 times j) as (F0 & F1 & F2).
        rewrite F0 in H0. rewrite F1 in H1. rewrite F2 in H2.
        cbn [nth_error]. apply IHnth. repeat split; assumption.
Qed.

End Accepted.

(** ** The table of passes *)

Section PassTable.

Context {sky : Skyfield}.
Variables (iss : Satellite) (now : Time) (latitude longitude : float).

Lemma calculate_passes_found (times : list Time) (events : list Z) :
  events_found iss now latitude longitude = (times, events) ->
  calculate_passes iss now latitude longitude
  = group_events iss (Topos latitude longitude) times events.
Proof.
  unfold events_found, calculate_passes. intros ->. reflexivity.
Qed.

Lemma calculate_passes_accepted (times : list Time) (events : list Z) :
  events_found iss now latitude longitude = (times, events) ->
  List.length times = List.length events ->
  calculate_passes iss now latitude longitude
  = ret (map (row_of iss (Topos latitude longitude)) (accepted times events)).
Proof.
  intros Hfound Hlen.
  rewrite (calculate_passes_found _ _ Hfound). now apply group_events_accepted.
Qed.

(** The indices the loop visits are 0, 3, 6, ..., one for each complete
    group of three events, whatever the codes are. *)
Lemma visited_indices (events : list Z) :
  Py.range 0 (Py.len events - 2) 3
  = map (fun j => 3 * Z.of_nat j) (seq 0 (List.length events / 3)).
Proof.
  unfold Py.len. rewrite range_thirds, range_from_multiples. reflexivity.
Qed.

Lemma visited_in_bounds (events : list Z) :
  Forall (fun i => 0 <= i /\ i + 2 < Py.len events)
         (Py.range 0 (Py.len events - 2) 3).
Proof.
  rewrite visited_indices. apply Forall_forall. intros i Hi.
  apply in_map_iff in Hi as (j & <- & Hj). apply in_seq in Hj.
  unfold Py.len.
  pose proof (Nat.Div0.mul_div_le (List.length events) 3). lia.
Qed.

(** C1: when the codes of the events found are 0,1,2 repeated [k] times (so
    that there are [3k] events), [calculate_passes] returns exactly [k] rows,
    and the [j]-th row is built from the [j]-th group of three consecutive
    instants: every group is accepted. *)
Theorem repeating_pattern_all_accepted (k : nat) (times : list Time) :
  events_found iss now latitude longitude = (times, rise_culminate_set k) ->
  List.length times = (3 * k)%nat ->
  exists rows : list pass_row,
    calculate_passes iss now latitude longitude = ret rows /\
    List.length rows = k /\
    forall (j : nat) (p : Time * Time * Time),
      nth_triple times j p ->
      nth_error rows j = Some (row_of iss (Topos latitude longitude) p).
Proof.
  intros Hfound Hlen.
  assert (Hev : List.length (rise_culminate_set k) = (3 * k)%nat).
  { clear. induction k as [|k IH]; [reflexivity|]. cbn [rise_culminate_set List.length].
    rewrite IH. lia. }
  destruct (accepted_rise_culminate_set k times Hlen) as [Hk Hnth].
  exists (map (row_of iss (Topos latitude longitude))
              (accepted times (rise_culminate_set k))).
  split; [|split].
  - apply calculate_passes_accepted; [assumption|congruence].
  - now rewrite length_map.
  - intros j p Hp. rewrite nth_error_map, (Hnth j p Hp). reflexivity.
Qed.

(** C2: when the number of events found is not a multiple of 3, the one or
    two events after the last complete group are dropped: the table is the
    one for the events without them, no exception is raised, and every index
    [i] of the loop has [i + 2] inside the sequence. *)
Theorem trailing_partial_group_dropped (times : list Time) (events : list Z) :
  events_found iss now latitude longitude = (times, events) ->
  List.length times = List.length events ->
  (List.length events mod 3 <> 0)%nat ->
  let n := (3 * (List.length events / 3))%nat in
  (0 < List.length (skipn n events) < 3)%nat /\
  calculate_passes iss now latitude longitude
  = group_events iss (Topos latitude longitude) (firstn n times) (firstn n events) /\
  (exists rows : list pass_row,
     calculate_passes iss now latitude longitude = ret rows) /\
  Forall (fun i => 0 <= i /\ i + 2 < Py.len events)
         (Py.range 0 (Py.len events - 2) 3).
Proof.
  intros Hfound Hlen Hmod n.
  pose proof (Nat.div_mod_eq (List.length events) 3) as Hdiv.
  pose proof (Nat.mod_upper_bound (List.length events) 3 ltac:(lia)) as Hup.
  split; [|split; [|split]].
  - rewrite length_skipn. subst n. lia.
  - rewrite (calculate_passes_accepted _ _ Hfound Hlen).
    rewrite group_events_accepted by (rewrite !length_firstn; lia).
    subst n. now rewrite <- accepted_firstn.
  - eexists. apply calculate_passes_accepted; eassumption.
  - apply visited_in_bounds.
Qed.

(** C3: no exception is raised, whatever the codes are.  Every row of the
    table comes from a group of three events at an index 0, 3, 6, ... whose
    codes are exactly 0, 1, 2 in this order; and a group whose codes are
    anything else is skipped: the table is the one for the events without
    this group. *)
Theorem out_of_order_triples_skipped (times : list Time) (events : list Z) :
  events_found iss now latitude longitude = (times, events) ->
  List.length times = List.length events ->
  exists rows : list pass_row,
    calculate_passes iss now latitude longitude = ret rows /\
    (forall row : pass_row, In row rows ->
       exists (j : nat) (p : Time * Time * Time),
         nth_triple_in_order events j /\ nth_triple times j p /\
         row = row_of iss (Topos latitude longitude) p) /\
    (forall (pre_t post_t : list Time) (pre_e post_e : list Z)
            (t0 t1 t2 : Time) (e0 e1 e2 : Z),
       times = (pre_t ++ t0 :: t1 :: t2 :: post_t)%list ->
       events = (pre_e ++ e0 :: e1 :: e2 :: post_e)%list ->
       List.length pre_t = List.length pre_e ->
       (List.length pre_e mod 3 = 0)%nat ->
       (e0, e1, e2) <> (0, 1, 2) ->
       ret rows = group_events iss (Topos latitude longitude)
                    (pre_t ++ post_t) (pre_e ++ post_e)).
Proof.
  intros Hfound Hlen.
  exists (map (row_of iss (Topos latitude longitude)) (accepted times events)).
  split; [|split].
  - now apply calculate_passes_accepted.
  - intros row Hin. apply in_map_iff in Hin as (p & <- & Hp).
    destruct (accepted_sound _ _ _ Hp) as (j & He & Ht).
    exists j, p. auto.
  - intros pre_t post_t pre_e post_e t0 t1 t2 e0 e1 e2 -> -> Hpre Hmod Hne.
    rewrite !length_app in Hlen. cbn [List.length] in Hlen.
    rewrite group_events_accepted by (rewrite !length_app; lia).
    rewrite !accepted_app by assumption.
    cbn [accepted]. destruct (in_order e0 e1 e2) eqn:Hord; [|reflexivity].
    apply in_order_true in Hord. contradiction.
Qed.

(** C5: when no group of three events at an index 0, 3, 6, ... has the codes
    0, 1, 2 (as when no event is found at all), [calculate_passes] raises
    nothing and returns the empty table. *)
Theorem no_qualifying_triple_empty_table (times : list Time) (events : list Z) :
  events_found iss now latitude longitude = (times, events) ->
  List.length times = List.length events ->
  (forall j : nat, ~ nth_triple_in_order events j) ->
  calculate_passes iss now latitude longitude = ret [].
Proof.
  intros Hfound Hlen Hnone.
  rewrite (calculate_passes_accepted _ _ Hfound Hlen).
  destruct (accepted times events) as [|p rest] eqn:Hacc; [reflexivity|].
  destruct (accepted_sound events times p) as (j & He & _).
  { rewrite Hacc. now left. }
  destruct (Hnone j He).
Qed.

(** C8: for the events [(t0,0); (t1,1); (t2,2); (t3,0); (t4,1); (t5,2)] the
    table has exactly two rows, the first for the pass from [t0] to [t2] and
    the second for the pass from [t3] to [t5].  In general the rows are those
    of the accepted triples in the order of the events: when the instants
    found are in chronological order, so are the instants of the passes of
    the table, row after row. *)
Theorem rows_in_chronological_order :
  (forall t0 t1 t2 t3 t4 t5 : Time,
     events_found iss now latitude longitude
     = ([t0; t1; t2; t3; t4; t5], [0; 1; 2; 0; 1; 2]) ->
     calculate_passes iss now latitude longitude
     = ret [row_of iss (Topos latitude longitude) (t0, t1, t2);
            row_of iss (Topos latitude longitude) (t3, t4, t5)]) /\
  (forall (times : list Time) (events : list Z) (before : Time -> Time -> Prop),
     events_found iss now latitude longitude = (times, events) ->
     List.length times = List.length events ->
     StronglySorted before times ->
     calculate_passes iss now latitude longitude
     = ret (map (row_of iss (Topos latitude longitude)) (accepted times events)) /\
     StronglySorted before (flat_map instants (accepted times events))).
Proof.
  split.
  - intros t0 t1 t2 t3 t4 t5 Hfound.
    rewrite (calculate_passes_accepted _ _ Hfound eq_refl). reflexivity.
  - intros times events before Hfound Hlen Hsorted. split.
    + now apply calculate_passes_accepted.
    + now apply accepted_sorted.
Qed.

(** C10: the loop looks only at the groups that start at the indices
    0, 3, 6, ..., whatever the codes are, and after a group that is out of
    order it goes on with the next index of this grid.  So for the codes
    1, 2, 0, 1, 2, 0 the table is empty, although the codes at the indices
    2, 3, 4 are 0, 1, 2. *)
Theorem fixed_grid_never_realigned :
  (forall events : list Z,
     Py.range 0 (Py.len events - 2) 3
     = map (fun j => 3 * Z.of_nat j) (seq 0 (List.length events / 3))) /\
  (forall (t0 t1 t2 : Time) (times : list Time) (e0 e1 e2 : Z) (events : list Z),
     events_found iss now latitude longitude
     = (t0 :: t1 :: t2 :: times, e0 :: e1 :: e2 :: events) ->
     List.length times = List.length events ->
     (e0, e1, e2) <> (0, 1, 2) ->
     calculate_passes iss now latitude longitude
     = group_events iss (Topos latitude longitude) times events) /\
  (forall t0 t1 t2 t3 t4 t5 : Time,
     events_found iss now latitude longitude
     = ([t0; t1; t2; t3; t4; t5], [1; 2; 0; 1; 2; 0]) ->
     calculate_passes iss now latitude longitude = ret [] /\
     firstn 3 (skipn 2 [1; 2; 0; 1; 2; 0]) = [0; 1; 2]).
Proof.
  split; [|split].
  - apply visited_indices.
  - intros t0 t1 t2 times e0 e1 e2 events Hfound Hlen Hne.
    rewrite (calculate_passes_accepted _ _ Hfound) by (cbn [List.length]; lia).
    rewrite group_events_accepted by assumption.
    cbn [accepted]. destruct (in_order e0 e1 e2) eqn:Hord; [|reflexivity].
    apply in_order_true in Hord. contradiction.
  - intros t0 t1 t2 t3 t4 t5 Hfound. split; [|reflexivity].
    rewrite (calculate_passes_accepted _ _ Hfound eq_refl). reflexivity.
Qed.

(** The duration as the script computes it: for every group of three events
    at an index 0, 3, 6, ... whose codes are 0, 1, 2, the table has a row
    for the pass, and its duration is the difference of the set and the rise
    instant in days, multiplied by 24 and then by 60 in binary64 arithmetic,
    shown with one decimal. *)
Lemma duration_is_days_times_24_times_60
        (times : list Time) (events : list Z) (j : nat)
        (rise_time culminate_time set_time : Time) :
  events_found iss now latitude longitude = (times, events) ->
  List.length times = List.length events ->
  nth_triple_in_order events j ->
  nth_triple times j (rise_time, culminate_time, set_time) ->
  exists (rows : list pass_row) (row : pass_row),
    calculate_passes iss now latitude longitude = ret rows /\
    In row rows /\
    rise_time_utc row = utc_strftime rise_time "%Y-%m-%d %H:%M" /\
    duration_min row
    = Py.format_f 1 (time_sub set_time rise_time * 24 * 60)%float.
Proof.
  intros Hfound Hlen Hcodes Htriple.
  exists (map (row_of iss (Topos latitude longitude)) (accepted times events)),
         (row_of iss (Topos latitude longitude) (rise_time, culminate_time, set_time)).
  split; [|split; [|split]].
  - now apply calculate_passes_accepted.
  - apply in_map. eapply accepted_complete; eassumption.
  - reflexivity.
  - reflexivity.
Qed.

End PassTable.

(** ** Fetching the elements *)

Lemma raise_for_status_ok (r : response) :
  raise_for_status r = ret tt ->
  fetch_tle (Replied r)
  = let attempt : result tle :=
      name <- Py.getitem (Py.split_crlf (Py.strip (text r))) 0 ;;
      line1 <- Py.getitem (Py.split_crlf (Py.strip (text r))) 1 ;;
      line2 <- Py.getitem (Py.split_crlf (Py.strip (text r))) 2 ;;
      ret (Some name, Some line1, Some line2) in
    match attempt with
    | inl (RequestException e) =>
        ([st_error ("Error fetching TLE data: " ++ e)], ret (None, None, None))
    | _ => ([], attempt)
    end.
Proof.
  intros Hok. unfold fetch_tle. cbn [requests_get bind ret]. rewrite Hok.
  reflexivity.
Qed.

Lemma raise_for_status_error (r : response) :
  (400 <=? status_code r) && (status_code r <? 600) = true ->
  exists msg, raise_for_status r = raise (RequestException msg).
Proof.
  intros H. unfold raise_for_status.
  destruct ((400 <=? status_code r) && (status_code r <? 500)) eqn:H4;
    [eexists; reflexivity|].
  destruct ((500 <=? status_code r) && (status_code r <? 600)) eqn:H5;
    [eexists; reflexivity|].
  rewrite andb_true_iff, Z.leb_le, Z.ltb_lt in H.
  rewrite andb_false_iff, Z.leb_gt, Z.ltb_ge in H4, H5. lia.
Qed.

(** C6: when the request raises or the status is an error status,
    [fetch_tle] raises nothing: it reports the error on the page and returns
    [(None, None, None)].  The script then stops: nothing of the pipeline
    behind the fetch is shown or computed. *)
Theorem fetch_failure_null_triple_and_stop (net : http) :
  fetch_fails net = true ->
  exists msg : string,
    fetch_tle net
    = ([st_error ("Error fetching TLE data: " ++ msg)], ret (None, None, None)) /\
    forall (sky : Skyfield) (now_live now_passes : Time) (selected_city : city),
      main net now_live now_passes selected_city
      = ((page_top ++ [st_error ("Error fetching TLE data: " ++ msg)])%list, Stopped) /\
      existsb behind_fetch (fst (main net now_live now_passes selected_city)) = false.
Proof.
  intros Hfail.
  assert (Hfetch : exists msg, fetch_tle net
            = ([st_error ("Error fetching TLE data: " ++ msg)], ret (None, None, None))).
  { destruct net as [msg|r].
    - exists msg. reflexivity.
    - destruct (raise_for_status_error r Hfail) as [msg Hmsg].
      exists msg. unfold fetch_tle. cbn [requests_get bind ret]. rewrite Hmsg.
      reflexivity. }
  destruct Hfetch as [msg Hfetch]. exists msg. split; [exact Hfetch|].
  intros sky now_live now_passes selected_city.
  unfold main. rewrite Hfetch. cbn. split; reflexivity.
Qed.

(** C7, as the script does it: when the status is not an error status and
    the body, with the white space at its two ends removed, has at least
    three pieces between CR LF, [fetch_tle] returns the first three of these
    pieces unchanged and shows nothing. *)
Theorem fetch_returns_first_three_stripped_lines
        (r : response) (name line1 line2 : string) (rest : list string) :
  raise_for_status r = ret tt ->
  Py.split_crlf (Py.strip (text r)) = name :: line1 :: line2 :: rest ->
  fetch_tle (Replied r) = ([], ret (Some name, Some line1, Some line2)).
Proof.
  intros Hok Hsplit. rewrite (raise_for_status_ok r Hok), Hsplit.
  rewrite getitem_0, getitem_1, getitem_2. reflexivity.
Qed.

(** C9: when the status is not an error status but the stripped body has
    fewer than three pieces between CR LF, [fetch_tle] raises [IndexError]
    and shows nothing, and the script ends with this exception.  An empty
    body, a body of one line and a body whose lines end in LF alone are such
    bodies. *)
Theorem short_body_uncaught_index_error :
  (forall r : response,
     raise_for_status r = ret tt ->
     (List.length (Py.split_crlf (Py.strip (text r))) < 3)%nat ->
     fetch_tle (Replied r) = ([], raise IndexError) /\
     forall (sky : Skyfield) (now_live now_passes : Time) (selected_city : city),
       main (Replied r) now_live now_passes selected_city
       = (page_top, Uncaught IndexError)) /\
  Forall (fun body => (List.length (Py.split_crlf (Py.strip body)) < 3)%nat)
         [ ""; "No GP data found";
           "ISS (ZARYA)" ++ String Py.LF ("1 25544U" ++ String Py.LF "2 25544") ].
Proof.
  split.
  - intros r Hok Hshort.
    assert (Hfetch : fetch_tle (Replied r) = ([], raise IndexError)).
    { rewrite (raise_for_status_ok r Hok).
      destruct (Py.split_crlf (Py.strip (text r))) as [|a [|b [|c l]]];
        [reflexivity|reflexivity|reflexivity|].
      cbn [List.length] in Hshort. lia. }
    split; [exact Hfetch|].
    intros sky now_live now_passes selected_city.
    unfold main. rewrite Hfetch. reflexivity.
  - repeat constructor.
Qed.

(** ** The claims on concrete inputs *)

(** Off the grid of the Julian dates the two products need not agree: for a
    difference of [0x1.70a3d70a3d70ap-9] days, which has 53 significant
    bits, the script shows 4.1 minutes where the product with 1440 shows as
    4.0. *)
Lemma off_grid_products_can_differ :
  Stub.found (Stub.short_pass, [0; 1; 2]) = (Stub.short_pass, [0; 1; 2]) /\
  Stub.passes (Stub.short_pass, [0; 1; 2]) = ret [Stub.row "0.0000" "4.1"] /\
  minutes_1440 (@time_sub Stub.sky 0x1.70a3d70a3d70ap-9 0)%float = "4.0" /\
  minutes_exact (@time_sub Stub.sky 0x1.70a3d70a3d70ap-9 0)%float = "4.0".
Proof. repeat split; vm_compute; reflexivity. Qed.

(** C7 does not hold for every successful reply: white space in front of the
    body is not returned, and a body of fewer than three lines gives no
    lines at all. *)
Lemma stripped_body_not_verbatim :
  let padded := Stub.ok_reply (" ISS" ++ Py.CRLF ++ "1" ++ Py.CRLF ++ "2") in
  let short := Stub.ok_reply "No GP data found" in
  (raise_for_status padded = ret tt /\
   first_three_lines_verbatim (text padded) = Some (" ISS", "1", "2") /\
   fetch_tle (Replied padded) = ([], ret (Some "ISS", Some "1", Some "2"))) /\
  (raise_for_status short = ret tt /\
   fetch_tle (Replied short) = ([], raise IndexError)).
Proof. repeat split; vm_compute; reflexivity. Qed.

Lemma repeating_pattern_all_accepted_witness :
  Stub.found (Stub.six_instants, rise_culminate_set 2)
  = (Stub.six_instants, rise_culminate_set 2) /\
  List.length Stub.six_instants = (3 * 2)%nat /\
  exists rows : list pass_row,
    Stub.passes (Stub.six_instants, rise_culminate_set 2)
    = ret rows /\
    List.length rows = 2%nat /\
    forall (j : nat) (p : float * float * float),
      nth_triple Stub.six_instants j p ->
      nth_error rows j
      = Some (@row_of Stub.sky (Stub.six_instants, rise_culminate_set 2)
                      (Stub.lat, Stub.lon) p).
Proof.
  split; [reflexivity|]. split; [reflexivity|].
  exact (@repeating_pattern_all_accepted Stub.sky
           (Stub.six_instants, rise_culminate_set 2) 0%float Stub.lat Stub.lon 2
           Stub.six_instants eq_refl eq_refl).
Defined.

Lemma trailing_partial_group_dropped_witness :
  let times := (Stub.short_pass ++ [0.5; 0.5001])%list%float in
  let events := [0; 1; 2; 0; 1] in
  Stub.found (times, events) = (times, events) /\
  List.length times = List.length events /\
  (List.length events mod 3 <> 0)%nat /\
  (0 < List.length (skipn 3 events) < 3)%nat /\
  Stub.passes (times, events)
  = Stub.group (times, events) (firstn 3 times) (firstn 3 events) /\
  (exists rows : list pass_row,
     Stub.passes (times, events) = ret rows) /\
  Forall (fun i => 0 <= i /\ i + 2 < Py.len events)
         (Py.range 0 (Py.len events - 2) 3).
Proof.
  intros times events.
  assert (Hmod : (List.length events mod 3 <> 0)%nat) by (cbn; discriminate).
  split; [reflexivity|]. split; [reflexivity|]. split; [exact Hmod|].
  exact (@trailing_partial_group_dropped Stub.sky (times, events) 0%float
           Stub.lat Stub.lon times events eq_refl eq_refl Hmod).
Defined.

Lemma out_of_order_triples_skipped_witness :
  let events := [1; 2; 0; 0; 1; 2] in
  Stub.found (Stub.six_instants, events)
  = (Stub.six_instants, events) /\
  List.length Stub.six_instants = List.length events /\
  Stub.passes (Stub.six_instants, events)
  = Stub.group (Stub.six_instants, events)
      (skipn 3 Stub.six_instants) [0; 1; 2].
Proof.
  intros events. split; [reflexivity|]. split; [reflexivity|].
  destruct (@out_of_order_triples_skipped Stub.sky (Stub.six_instants, events)
              0%float Stub.lat Stub.lon Stub.six_instants events eq_refl eq_refl)
    as (rows & Hrows & _ & Hskip).
  unfold Stub.passes, Stub.group. rewrite Hrows.
  apply (Hskip [] (skipn 3 Stub.six_instants) [] [0; 1; 2]
               0.25%float 0.251953125%float 0.25390625%float 1 2 0);
    [reflexivity|reflexivity|reflexivity|reflexivity|discriminate].
Defined.

Lemma no_qualifying_triple_empty_table_witness :
  let events := [1; 2; 0; 1; 2; 0] in
  (Stub.found (Stub.six_instants, events)
   = (Stub.six_instants, events) /\
   List.length Stub.six_instants = List.length events /\
   (forall j : nat, ~ nth_triple_in_order events j) /\
   Stub.passes (Stub.six_instants, events) = ret []) /\
  (Stub.found ([], []) = ([], []) /\
   Stub.passes ([], []) = ret []).
Proof.
  intros events.
  assert (Hnone : forall j : nat, ~ nth_triple_in_order events j).
  { intros [|[|j]] (H0 & _); try (cbn in H0; discriminate H0).
    replace (3 * S (S j))%nat with (6 + 3 * j)%nat in H0 by lia.
    unfold events in H0. cbn [nth_error Nat.add] in H0.
    destruct (3 * j)%nat; discriminate H0. }
  split; [split; [reflexivity|split; [reflexivity|split; [exact Hnone|]]]|].
  - exact (@no_qualifying_triple_empty_table Stub.sky (Stub.six_instants, events)
             0%float Stub.lat Stub.lon Stub.six_instants events eq_refl eq_refl Hnone).
  - split; [reflexivity|].
    apply (@no_qualifying_triple_empty_table Stub.sky ([], []) 0%float Stub.lat Stub.lon
             [] [] eq_refl eq_refl).
    intros j (H0 & _). destruct (3 * j)%nat; discriminate H0.
Defined.

Lemma rows_in_chronological_order_witness :
  let events := [0; 1; 2; 0; 1; 2] in
  let before := fun a b : float => (a <? b)%float = true in
  Stub.found (Stub.six_instants, events)
  = (Stub.six_instants, events) /\
  List.length Stub.six_instants = List.length events /\
  StronglySorted before Stub.six_instants /\
  Stub.passes (Stub.six_instants, events)
  = ret [Stub.row "0.2500" "5.6"; Stub.row "0.3125" "5.6"] /\
  Stub.passes (Stub.six_instants, events)
  = ret (map (@row_of Stub.sky (Stub.six_instants, events) (Stub.lat, Stub.lon))
             (accepted Stub.six_instants events)) /\
  StronglySorted before (flat_map instants (accepted Stub.six_instants events)).
Proof.
  intros events before.
  assert (Hsorted : StronglySorted before Stub.six_instants)
    by (repeat constructor).
  destruct (@rows_in_chronological_order Stub.sky (Stub.six_instants, events)
              0%float Stub.lat Stub.lon) as [Hexample Hgeneral].
  split; [reflexivity|]. split; [reflexivity|]. split; [exact Hsorted|]. split.
  - exact (Hexample 0.25 0.251953125 0.25390625 0.3125 0.314453125 0.31640625
                    eq_refl)%float.
  - exact (Hgeneral Stub.six_instants events before eq_refl eq_refl Hsorted).
Defined.

Lemma fixed_grid_never_realigned_witness :
  let events := [1; 2; 0; 1; 2; 0] in
  Stub.found (Stub.six_instants, events)
  = (Stub.six_instants, events) /\
  (1, 2, 0) <> (0, 1, 2) /\
  Stub.passes (Stub.six_instants, events)
  = Stub.group (Stub.six_instants, events)
      (skipn 3 Stub.six_instants) [1; 2; 0] /\
  Stub.passes (Stub.six_instants, events) = ret [] /\
  firstn 3 (skipn 2 events) = [0; 1; 2].
Proof.
  intros events.
  destruct (@fixed_grid_never_realigned Stub.sky (Stub.six_instants, events)
              0%float Stub.lat Stub.lon) as (_ & Hnext & Hexample).
  split; [reflexivity|]. split; [discriminate|]. split.
  - apply (Hnext 0.25%float 0.251953125%float 0.25390625%float
                 (skipn 3 Stub.six_instants) 1 2 0 [1; 2; 0]);
      [reflexivity|reflexivity|discriminate].
  - exact (Hexample 0.25 0.251953125 0.25390625 0.3125 0.314453125 0.31640625
                    eq_refl)%float.
Defined.

Lemma fetch_failure_null_triple_and_stop_witness :
  (fetch_fails (Replied Stub.not_found) = true /\
   exists msg : string,
     fetch_tle (Replied Stub.not_found)
     = ([st_error ("Error fetching TLE data: " ++ msg)], ret (None, None, None)) /\
     forall (sky : Skyfield) (now_live now_passes : Time) (selected_city : city),
       main (Replied Stub.not_found) now_live now_passes selected_city
       = ((page_top ++ [st_error ("Error fetching TLE data: " ++ msg)])%list, Stopped) /\
       existsb behind_fetch
               (fst (main (Replied Stub.not_found) now_live now_passes selected_city))
       = false) /\
  (fetch_fails (Failed "Read timed out.") = true /\
   exists msg : string,
     fetch_tle (Failed "Read timed out.")
     = ([st_error ("Error fetching TLE data: " ++ msg)], ret (None, None, None)) /\
     forall (sky : Skyfield) (now_live now_passes : Time) (selected_city : city),
       main (Failed "Read timed out.") now_live now_passes selected_city
       = ((page_top ++ [st_error ("Error fetching TLE data: " ++ msg)])%list, Stopped) /\
       existsb behind_fetch
               (fst (main (Failed "Read timed out.") now_live now_passes selected_city))
       = false).
Proof.
  split; (split; [reflexivity|]).
  - exact (fetch_failure_null_triple_and_stop (Replied Stub.not_found) eq_refl).
  - exact (fetch_failure_null_triple_and_stop (Failed "Read timed out.") eq_refl).
Defined.

Lemma fetch_returns_first_three_stripped_lines_witness :
  raise_for_status (Stub.ok_reply Stub.iss_elements) = ret tt /\
  Py.split_crlf (Py.strip (text (Stub.ok_reply Stub.iss_elements)))
  = [ "ISS (ZARYA)             ";
      "1 25544U 98067A   24001.50000000  .00016717  00000+0  30000-3 0  9993";
      "2 25544  51.6400 100.0000 0005000  90.0000 270.0000 15.50000000400000" ] /\
  fetch_tle (Replied (Stub.ok_reply Stub.iss_elements))
  = ([], ret (Some "ISS (ZARYA)             ",
              Some "1 25544U 98067A   24001.50000000  .00016717  00000+0  30000-3 0  9993",
              Some "2 25544  51.6400 100.0000 0005000  90.0000 270.0000 15.50000000400000")).
Proof.
  split; [reflexivity|]. split; [reflexivity|].
  exact (fetch_returns_first_three_stripped_lines
           (Stub.ok_reply Stub.iss_elements) _ _ _ [] eq_refl eq_refl).
Defined.

Lemma short_body_uncaught_index_error_witness :
  let r := Stub.ok_reply "No GP data found" in
  raise_for_status r = ret tt /\
  (List.length (Py.split_crlf (Py.strip (text r))) < 3)%nat /\
  fetch_tle (Replied r) = ([], raise IndexError) /\
  forall (sky : Skyfield) (now_live now_passes : Time) (selected_city : city),
    main (Replied r) now_live now_passes selected_city
    = (page_top, Uncaught IndexError).
Proof.
  intros r.
  assert (Hshort : (List.length (Py.split_crlf (Py.strip (text r))) < 3)%nat)
    by (vm_compute; lia).
  split; [reflexivity|]. split; [exact Hshort|].
  exact (proj1 short_body_uncaught_index_error r eq_refl Hshort).
Defined.

(** ** The loop on arrays of any lengths *)

Lemma getitem_skipn3 {A : Type} (l : list A) (i : Z) :
  0 <= i -> Py.getitem l (i + 3) = Py.getitem (skipn 3 l) i.
Proof.
  intros Hi. destruct l as [|a [|b [|c l]]];
    try (unfold Py.getitem, Py.len; cbn [List.length skipn];
         destruct (Z.ltb_spec (i + 3) 0); [lia|];
         destruct (Z.ltb_spec i 0); [lia|];
         destruct (Z.leb_spec 0 (i + 3)); [|lia];
         destruct (Z.leb_spec 0 i); [|lia];
         cbn [andb];
         match goal with
         | |- context [?x <? ?y] => destruct (Z.ltb_spec x y); [lia|]
         end;
         match goal with
         | |- context [?x <? ?y] => destruct (Z.ltb_spec x y); [lia|]
         end;
         reflexivity).
  now apply getitem_shift3.
Qed.

Section LoopAnyLengths.

Context {sky : Skyfield}.
Variables (iss : Satellite) (observer_location : Observer).

Lemma pass_at_skipn3 (times : list Time) (e0 e1 e2 : Z) (events : list Z)
      (i : Z) (pass_data : list pass_row) :
  0 <= i ->
  pass_at iss observer_location times (e0 :: e1 :: e2 :: events) (i + 3) pass_data
  = pass_at iss observer_location (skipn 3 times) events i pass_data.
Proof.
  intros Hi. unfold pass_at.
  replace (i + 3 + 1) with (i + 1 + 3) by lia.
  replace (i + 3 + 2) with (i + 2 + 3) by lia.
  rewrite !(getitem_shift3 e0 e1 e2) by lia.
  rewrite !(getitem_skipn3 times) by lia. reflexivity.
Qed.

Lemma for_each_skipn3 (times : list Time) (e0 e1 e2 : Z) (events : list Z)
      (n : nat) :
  forall (start : Z) (pass_data : list pass_row),
  0 <= start ->
  Py.for_each (Py.range_from (start + 3) 3 n)
    (pass_at iss observer_location times (e0 :: e1 :: e2 :: events)) pass_data
  = Py.for_each (Py.range_from start 3 n)
      (pass_at iss observer_location (skipn 3 times) events) pass_data.
Proof.
  induction n as [|n IH]; intros start pass_data Hs; [reflexivity|].
  cbn [Py.range_from Py.for_each].
  rewrite pass_at_skipn3 by lia.
  destruct (pass_at iss observer_location (skipn 3 times) events start pass_data);
    cbn [bind]; [reflexivity|].
  apply IH. lia.
Qed.

(** The first turn of the loop, whatever the instants are. *)
Lemma pass_at_first_any (times : list Time) (e0 e1 e2 : Z) (events : list Z)
      (pass_data : list pass_row) :
  pass_at iss observer_location times (e0 :: e1 :: e2 :: events) 0 pass_data
  = if in_order e0 e1 e2 then
      match times with
      | t0 :: t1 :: t2 :: _ =>
          ret (pass_data ++ [row_of iss observer_location (t0, t1, t2)])%list
      | _ => raise IndexError
      end
    else ret pass_data.
Proof.
  destruct times as [|t0 [|t1 [|t2 times]]].
  4: { rewrite pass_at_first. destruct (in_order e0 e1 e2);
         [reflexivity|now rewrite app_nil_r]. }
  all: unfold pass_at, in_order;
    change (0 + 1) with 1; change (0 + 2) with 2;
    rewrite !getitem_0, !getitem_1, !getitem_2; cbn [bind ret];
    destruct (e0 =? 0); cbn [andb negb bind ret]; [|reflexivity];
    destruct (e1 =? 1); cbn [andb negb bind ret]; [|reflexivity];
    destruct (e2 =? 2); cbn [andb negb bind ret]; reflexivity.
Qed.

Lemma loop_grouped (events : list Z) :
  forall (times : list Time) (pass_data : list pass_row),
  Py.for_each (Py.range 0 (Py.len events - 2) 3)
    (pass_at iss observer_location times events) pass_data
  = (passes <- grouped times events ;;
     ret (pass_data ++ map (row_of iss observer_location) passes)%list).
Proof.
  unfold Py.len. induction events as [|e0|e0 e1|e0 e1 e2 events IH] using list_ind3;
    intros times pass_data.
  - cbn. now rewrite app_nil_r.
  - cbn. now rewrite app_nil_r.
  - cbn. now rewrite app_nil_r.
  - cbn [List.length]. rewrite range_thirds, thirds_step.
    cbn [Py.range_from Py.for_each]. rewrite pass_at_first_any.
    cbn [grouped].
    destruct (in_order e0 e1 e2).
    + destruct times as [|t0 [|t1 [|t2 times]]]; try reflexivity.
      cbn [bind ret]. change (0 + 3) with 3 at 1.
      rewrite (for_each_skipn3 (t0 :: t1 :: t2 :: times) e0 e1 e2 events _ 0) by lia.
      rewrite <- range_thirds, IH. cbn [skipn].
      destruct (grouped times events) as [e|passes]; cbn [bind ret map];
        [reflexivity|].
      now rewrite <- app_assoc.
    + cbn [bind ret]. change (0 + 3) with 3 at 1.
      rewrite (for_each_skipn3 times e0 e1 e2 events _ 0) by lia.
      rewrite <- range_thirds, IH. reflexivity.
Qed.

Lemma group_events_grouped (times : list Time) (events : list Z) :
  group_events iss observer_location times events
  = (passes <- grouped times events ;;
     ret (map (row_of iss observer_location) passes)).
Proof. unfold group_events. now rewrite loop_grouped. Qed.

End LoopAnyLengths.

Section Grouped.

Context {T : Type}.

Lemma in_order_needs_three (events : list Z) (j : nat) :
  nth_triple_in_order events j -> (3 * j + 3 <= List.length events)%nat.
Proof.
  intros (_ & _ & H2).
  assert (3 * j + 2 < List.length events)%nat by (apply nth_error_Some; congruence).
  lia.
Qed.

Lemma nth_triple_in_order_first (e0 e1 e2 : Z) (events : list Z) :
  nth_triple_in_order (e0 :: e1 :: e2 :: events) 0 <-> in_order e0 e1 e2 = true.
Proof.
  rewrite in_order_true. unfold nth_triple_in_order. cbn. split.
  - intros ([= ->] & [= ->] & [= ->]). reflexivity.
  - intros [= -> -> ->]. auto.
Qed.

Lemma nth_triple_in_order_next (e0 e1 e2 : Z) (events : list Z) (j : nat) :
  nth_triple_in_order (e0 :: e1 :: e2 :: events) (S j)
  <-> nth_triple_in_order events j.
Proof.
  unfold nth_triple_in_order.
  destruct (nth_triple_next Z e0 e1 e2 events j) as (-> & -> & ->). reflexivity.
Qed.

(** An accepted group without its three instants makes the loop fail. *)
Lemma grouped_missing (events : list Z) :
  forall (times : list T) (j : nat),
  nth_triple_in_order events j ->
  (List.length times < 3 * j + 3)%nat ->
  grouped times events = raise IndexError.
Proof.
  induction events as [|e0|e0 e1|e0 e1 e2 events IH] using list_ind3;
    intros times j Hj Hlen;
    try (apply in_order_needs_three in Hj; cbn [List.length] in Hj; lia).
  destruct j as [|j].
  - apply nth_triple_in_order_first in Hj. cbn [grouped]. rewrite Hj.
    destruct times as [|t0 [|t1 [|t2 times]]]; try reflexivity.
    cbn [List.length] in Hlen. lia.
  - apply nth_triple_in_order_next in Hj.
    assert (Hrest : grouped (skipn 3 times) events = raise IndexError).
    { apply (IH _ j Hj). rewrite length_skipn. lia. }
    cbn [grouped]. destruct (in_order e0 e1 e2); [|exact Hrest].
    destruct times as [|t0 [|t1 [|t2 times]]]; try reflexivity.
    rewrite Hrest. reflexivity.
Qed.

(** The loop fails in no other way. *)
Lemma grouped_error (events : list Z) :
  forall (times : list T) (e : exn),
  grouped times events = inl e ->
  e = IndexError /\
  exists j, nth_triple_in_order events j /\ (List.length times < 3 * j + 3)%nat.
Proof.
  induction events as [|e0|e0 e1|e0 e1 e2 events IH] using list_ind3;
    intros times e H; try discriminate H.
  assert (Hnext : forall x, grouped (skipn 3 times) events = inl x ->
            x = IndexError /\
            exists j, nth_triple_in_order (e0 :: e1 :: e2 :: events) j /\
                      (List.length times < 3 * j + 3)%nat).
  { intros x Hx. destruct (IH _ _ Hx) as (-> & j & Hj & Hlen).
    split; [reflexivity|]. exists (S j). split.
    - now apply nth_triple_in_order_next.
    - rewrite length_skipn in Hlen. lia. }
  cbn [grouped] in H. destruct (in_order e0 e1 e2) eqn:Hord; [|now apply Hnext].
  apply nth_triple_in_order_first with (events := events) in Hord.
  destruct times as [|t0 [|t1 [|t2 times]]];
    try (injection H as <-; split; [reflexivity|];
         exists 0%nat; split; [assumption|cbn [List.length]; lia]).
  destruct (grouped (skipn 3 (t0 :: t1 :: t2 :: times)) events) as [x|rest] eqn:G;
    [|discriminate H].
  injection H as <-. now apply Hnext.
Qed.

Lemma accepted_short (events : list Z) (times : list T) :
  (List.length times < 3)%nat -> accepted times events = [].
Proof.
  intros Hlen. destruct events as [|e0 [|e1 [|e2 events]]]; try reflexivity.
  destruct times as [|t0 [|t1 [|t2 times]]]; try reflexivity.
  cbn [List.length] in Hlen. lia.
Qed.

(** When every accepted group has its instants, the loop returns the
    accepted triples, whatever else the two arrays hold. *)
Lemma grouped_accepted (events : list Z) :
  forall times : list T,
  (forall j, nth_triple_in_order events j -> (3 * j + 3 <= List.length times)%nat) ->
  grouped times events = ret (accepted times events).
Proof.
  induction events as [|e0|e0 e1|e0 e1 e2 events IH] using list_ind3;
    intros times Hall; try (destruct times as [|? [|? [|? ?]]]; reflexivity).
  assert (Hrest : grouped (skipn 3 times) events
                  = ret (accepted (skipn 3 times) events)).
  { apply IH. intros j Hj. rewrite length_skipn.
    apply nth_triple_in_order_next with (e0 := e0) (e1 := e1) (e2 := e2) in Hj.
    specialize (Hall _ Hj). lia. }
  cbn [grouped]. destruct (in_order e0 e1 e2) eqn:Hord.
  - apply nth_triple_in_order_first with (events := events) in Hord.
    specialize (Hall _ Hord).
    destruct times as [|t0 [|t1 [|t2 times]]]; try (cbn [List.length] in Hall; lia).
    rewrite Hrest. cbn [skipn bind ret accepted].
    apply nth_triple_in_order_first in Hord. now rewrite Hord.
  - rewrite Hrest.
    destruct times as [|t0 [|t1 [|t2 times]]];
      try (cbn [skipn]; rewrite !accepted_short by (cbn [List.length]; lia);
           reflexivity).
    cbn [skipn accepted]. now rewrite Hord.
Qed.

(** Never more triples than complete groups of three events. *)
Lemma grouped_length (events : list Z) :
  forall (times : list T) (passes : list (T * T * T)),
  grouped times events = ret passes ->
  (List.length passes <= List.length events / 3)%nat.
Proof.
  induction events as [|e0|e0 e1|e0 e1 e2 events IH] using list_ind3;
    intros times passes H;
    try (injection H as <-; cbn [List.length]; lia).
  cbn [List.length]. rewrite thirds_step.
  cbn [grouped] in H. destruct (in_order e0 e1 e2).
  - destruct times as [|t0 [|t1 [|t2 times]]]; try discriminate H.
    destruct (grouped (skipn 3 (t0 :: t1 :: t2 :: times)) events) as [x|rest] eqn:G;
      [discriminate H|].
    injection H as <-. cbn [List.length]. specialize (IH _ _ G). lia.
  - specialize (IH _ _ H). lia.
Qed.

(** Whole groups in front are handled on their own. *)
Lemma grouped_app (pre_e : list Z) :
  forall (pre_t times : list T) (events : list Z),
  List.length pre_t = List.length pre_e ->
  (List.length pre_e mod 3 = 0)%nat ->
  grouped (pre_t ++ times) (pre_e ++ events)
  = (front <- grouped pre_t pre_e ;;
     back <- grouped times events ;;
     ret (front ++ back)%list).
Proof.
  induction pre_e as [|e0|e0 e1|e0 e1 e2 pre_e IH] using list_ind3;
    intros pre_t times events Hlen Hmod; try discriminate Hmod.
  - destruct pre_t; [|discriminate Hlen]. cbn [app grouped bind ret].
    destruct (grouped times events); reflexivity.
  - destruct pre_t as [|t0 [|t1 [|t2 pre_t]]]; try discriminate Hlen.
    cbn [List.length] in Hlen, Hmod.
    assert (Hmod' : (List.length pre_e mod 3 = 0)%nat).
    { replace (S (S (S (List.length pre_e)))) with (List.length pre_e + 1 * 3)%nat
        in Hmod by lia.
      now rewrite Nat.Div0.mod_add in Hmod. }
    specialize (IH pre_t times events ltac:(lia) Hmod').
    cbn [app grouped skipn]. rewrite IH.
    destruct (in_order e0 e1 e2); [|reflexivity].
    destruct (grouped pre_t pre_e) as [x|front]; cbn [bind ret]; [reflexivity|].
    destruct (grouped times events) as [y|back]; reflexivity.
Qed.

End Grouped.

(** ** The table of passes when the arrays differ in length *)

Section PassTableAnyLengths.

Context {sky : Skyfield}.
Variables (iss : Satellite) (now : Time) (latitude longitude : float).

Lemma calculate_passes_grouped (times : list Time) (events : list Z) :
  events_found iss now latitude longitude = (times, events) ->
  calculate_passes iss now latitude longitude
  = (passes <- grouped times events ;;
     ret (map (row_of iss (Topos latitude longitude)) passes)).
Proof.
  intros Hfound. rewrite (calculate_passes_found _ _ _ _ _ _ Hfound).
  apply group_events_grouped.
Qed.

Lemma calculate_passes_only_index_error (e : exn) :
  calculate_passes iss now latitude longitude = inl e -> e = IndexError.
Proof.
  destruct (events_found iss now latitude longitude) as [times events] eqn:Hfound.
  rewrite (calculate_passes_grouped _ _ Hfound).
  destruct (grouped times events) as [x|passes] eqn:G; [|discriminate].
  intros [= <-]. now destruct (grouped_error _ _ _ G).
Qed.

(** X1: [calculate_passes] raises [IndexError] exactly when some group of
    three events at an index 0, 3, 6, ... has the codes 0, 1, 2 and the array
    of instants ends before the third instant of this group; it raises no
    other exception. *)
Theorem index_error_iff_instants_missing (times : list Time) (events : list Z) :
  events_found iss now latitude longitude = (times, events) ->
  (calculate_passes iss now latitude longitude = raise IndexError <->
   exists j : nat,
     nth_triple_in_order events j /\ (List.length times < 3 * j + 3)%nat) /\
  (forall e : exn,
     calculate_passes iss now latitude longitude = inl e -> e = IndexError).
Proof.
  intros Hfound. split; [|apply calculate_passes_only_index_error].
  rewrite (calculate_passes_grouped _ _ Hfound). split.
  - destruct (grouped times events) as [x|passes] eqn:G; [|discriminate].
    intros _. now destruct (grouped_error _ _ _ G).
  - intros (j & Hj & Hlen). now rewrite (grouped_missing _ _ _ Hj Hlen).
Qed.

(** X2: the instants are read for the accepted groups only.  When every
    group with the codes 0, 1, 2 has its three instants, the table is the
    one of the accepted groups, also when the two arrays differ in length
    (more instants than events, or events of rejected groups without
    instants). *)
Theorem instants_read_for_accepted_groups_only
        (times : list Time) (events : list Z) :
  events_found iss now latitude longitude = (times, events) ->
  (forall j : nat,
     nth_triple_in_order events j -> (3 * j + 3 <= List.length times)%nat) ->
  calculate_passes iss now latitude longitude
  = ret (map (row_of iss (Topos latitude longitude)) (accepted times events)).
Proof.
  intros Hfound Hall.
  rewrite (calculate_passes_grouped _ _ Hfound), (grouped_accepted _ _ Hall).
  reflexivity.
Qed.

(** X3: the table never has more rows than there are complete groups of
    three events. *)
Theorem rows_at_most_one_per_group
        (times : list Time) (events : list Z) (rows : list pass_row) :
  events_found iss now latitude longitude = (times, events) ->
  calculate_passes iss now latitude longitude = ret rows ->
  (List.length rows <= List.length events / 3)%nat.
Proof.
  intros Hfound. rewrite (calculate_passes_grouped _ _ Hfound).
  destruct (grouped times events) as [x|passes] eqn:G; [discriminate|].
  intros [= <-]. rewrite length_map. exact (grouped_length _ _ _ G).
Qed.

(** X4: the loop handles whole groups in front on their own: for events
    that start with a multiple of three events (with as many instants), the
    table is the table of this front part followed by the table of the
    rest, and an exception of either part is the exception of the whole. *)
Theorem table_of_concatenation
        (front_t back_t : list Time) (front_e back_e : list Z) :
  List.length front_t = List.length front_e ->
  (List.length front_e mod 3 = 0)%nat ->
  group_events iss (Topos latitude longitude)
               (front_t ++ back_t) (front_e ++ back_e)
  = (front <- group_events iss (Topos latitude longitude) front_t front_e ;;
     back <- group_events iss (Topos latitude longitude) back_t back_e ;;
     ret (front ++ back)%list).
Proof.
  intros Hlen Hmod. rewrite !group_events_grouped, (grouped_app _ _ _ _ Hlen Hmod).
  destruct (grouped front_t front_e) as [x|front]; cbn [bind ret]; [reflexivity|].
  destruct (grouped back_t back_e) as [y|back]; cbn [bind ret]; [reflexivity|].
  now rewrite map_app.
Qed.

End PassTableAnyLengths.

(** ** What [fetch_tle] can return *)

Lemma raise_for_status_cases (r : response) :
  (fetch_fails (Replied r) = false /\ raise_for_status r = ret tt) \/
  (fetch_fails (Replied r) = true /\
   exists msg, raise_for_status r = raise (RequestException msg)).
Proof.
  destruct (fetch_fails (Replied r)) eqn:Hfail.
  - right. split; [reflexivity|]. now apply raise_for_status_error.
  - left. split; [reflexivity|]. cbn [fetch_fails] in Hfail.
    unfold raise_for_status.
    rewrite andb_false_iff, Z.leb_gt, Z.ltb_ge in Hfail.
    destruct (Z.leb_spec 400 (status_code r)); cbn [andb].
    + destruct (Z.ltb_spec (status_code r) 500).
      * lia.
      * destruct (Z.leb_spec 500 (status_code r)); [|lia]. cbn [andb].
        destruct (Z.ltb_spec (status_code r) 600); [lia|reflexivity].
    + destruct (Z.leb_spec 500 (status_code r)); [lia|reflexivity].
Qed.

Lemma fetch_tle_failed (net : http) :
  fetch_fails net = true ->
  exists msg, fetch_tle net
    = ([st_error ("Error fetching TLE data: " ++ msg)], ret (None, None, None)).
Proof.
  intros Hfail. destruct net as [msg|r].
  - exists msg. reflexivity.
  - destruct (raise_for_status_error r Hfail) as [msg Hmsg].
    exists msg. unfold fetch_tle. cbn [requests_get bind ret]. rewrite Hmsg.
    reflexivity.
Qed.

Lemma fetch_tle_replied (r : response) :
  raise_for_status r = ret tt ->
  fetch_tle (Replied r)
  = match Py.split_crlf (Py.strip (text r)) with
    | name :: line1 :: line2 :: _ => ([], ret (Some name, Some line1, Some line2))
    | _ => ([], raise IndexError)
    end.
Proof.
  intros Hok. rewrite (raise_for_status_ok r Hok).
  destruct (Py.split_crlf (Py.strip (text r))) as [|a [|b [|c l]]]; try reflexivity.
  rewrite getitem_0, getitem_1, getitem_2. reflexivity.
Qed.

(** X5: [fetch_tle] ends in one of three ways and in no other.  When the
    fetch fails it shows one error and returns [(None, None, None)];
    otherwise it shows nothing and either raises [IndexError] or returns
    three strings.  So it never raises a [RequestException], never returns a
    triple with some but not all of its parts, and shows the error exactly
    when the fetch fails. *)
Theorem fetch_tle_three_outcomes (net : http) :
  (fetch_fails net = true /\
   exists msg : string,
     fetch_tle net
     = ([st_error ("Error fetching TLE data: " ++ msg)], ret (None, None, None))) \/
  (fetch_fails net = false /\ fetch_tle net = ([], raise IndexError)) \/
  (fetch_fails net = false /\
   exists name line1 line2 : string,
     fetch_tle net = ([], ret (Some name, Some line1, Some line2))).
Proof.
  destruct (fetch_fails net) eqn:Hfail.
  - left. split; [reflexivity|]. now apply fetch_tle_failed.
  - right. destruct net as [msg|r]; [discriminate Hfail|].
    destruct (raise_for_status_cases r) as [[_ Hok]|[Hbad _]]; [|congruence].
    rewrite (fetch_tle_replied r Hok).
    destruct (Py.split_crlf (Py.strip (text r))) as [|a [|b [|c l]]];
      try (left; split; reflexivity).
    right. split; [reflexivity|]. exists a, b, c. reflexivity.
Qed.

Lemma lstrip_head (s : string) (c : ascii) (rest : string) :
  Py.lstrip s = String c rest -> Py.isspace c = false.
Proof.
  induction s as [|d s IH]; cbn [Py.lstrip]; [discriminate|].
  destruct (Py.isspace d) eqn:Hd; [exact IH|].
  intros [= <- _]. exact Hd.
Qed.

Lemma rstrip_head (s : string) (c : ascii) (rest : string) :
  Py.rstrip s = String c rest -> exists rest', s = String c rest'.
Proof.
  destruct s as [|d s]; cbn [Py.rstrip]; [discriminate|].
  destruct (Py.rstrip s); [destruct (Py.isspace d); [discriminate|]|];
    intros [= <- _]; eexists; reflexivity.
Qed.

Lemma strip_head (s : string) (c : ascii) (rest : string) :
  Py.strip s = String c rest -> Py.isspace c = false.
Proof.
  unfold Py.strip. intros H. apply rstrip_head in H as [rest' H].
  exact (lstrip_head _ _ _ H).
Qed.

Lemma split_crlf_step (c d : ascii) (s : string) :
  Py.split_crlf (String c (String d s))
  = if (Ascii.eqb c Py.CR && Ascii.eqb d Py.LF)%bool then "" :: Py.split_crlf s
    else match Py.split_crlf (String d s) with
         | piece :: pieces => String c piece :: pieces
         | [] => [String c ""]
         end.
Proof. reflexivity. Qed.

Lemma split_crlf_head (c : ascii) (s : string) :
  Py.isspace c = false ->
  exists piece pieces, Py.split_crlf (String c s) = String c piece :: pieces.
Proof.
  intros Hc.
  assert (Hcr : Ascii.eqb c Py.CR = false).
  { destruct (Ascii.eqb_spec c Py.CR) as [->|]; [discriminate Hc|reflexivity]. }
  destruct s as [|d s]; [eexists _, _; reflexivity|].
  rewrite split_crlf_step, Hcr. cbn [andb].
  destruct (Py.split_crlf (String d s)) as [|piece pieces];
    eexists _, _; reflexivity.
Qed.

(** X6: the name that [fetch_tle] returns is never empty and never starts
    with white space. *)
Theorem fetched_name_not_blank
        (net : http) (shown : list widget) (name : string)
        (line1 line2 : option string) :
  fetch_tle net = (shown, ret (Some name, line1, line2)) ->
  name <> "" /\ starts_with_space name = false.
Proof.
  intros Hfetch.
  destruct net as [msg|r]; [discriminate Hfetch|].
  destruct (raise_for_status_cases r) as [[_ Hok]|[Hbad _]].
  2: { destruct (fetch_tle_failed _ Hbad) as [msg Hmsg].
       rewrite Hmsg in Hfetch. unfold ret in Hfetch. discriminate Hfetch. }
  rewrite (fetch_tle_replied r Hok) in Hfetch.
  destruct (Py.strip (text r)) as [|c body] eqn:Hstrip; [discriminate Hfetch|].
  pose proof (strip_head _ _ _ Hstrip) as Hc.
  destruct (split_crlf_head c body Hc) as (piece & pieces & Hsplit).
  rewrite Hsplit in Hfetch.
  destruct pieces as [|b [|d l]]; try discriminate Hfetch.
  injection Hfetch as _ <- _ _. split; [discriminate|exact Hc].
Qed.

(** ** The script as a whole *)

Lemma first_piece_not_blank (body name : string) (pieces : list string) :
  Py.split_crlf (Py.strip body) = name :: pieces ->
  name = "" /\ pieces = [] \/
  exists c rest, name = String c rest /\ Py.isspace c = false.
Proof.
  intros Hsplit.
  destruct (Py.strip body) as [|c stripped] eqn:Hstrip.
  - left. injection Hsplit as <- <-. auto.
  - right. pose proof (strip_head _ _ _ Hstrip) as Hc.
    destruct (split_crlf_head c stripped Hc) as (piece & rest & Hhead).
    rewrite Hhead in Hsplit. injection Hsplit as <- _. eauto.
Qed.

Section ScriptFacts.

Context {sky : Skyfield}.
Variables (now_live now_passes : Time) (selected_city : city).

Lemma main_replied (r : response) (a b c : string) (l : list string) :
  raise_for_status r = ret tt ->
  Py.split_crlf (Py.strip (text r)) = a :: b :: c :: l ->
  main (Replied r) now_live now_passes selected_city
  = if negb (Py.all [Some a; Some b; Some c]) then (page_top, Stopped)
    else let '(shown, how) := dashboard a b c now_live now_passes selected_city in
         ((page_top ++ shown)%list, how).
Proof.
  intros Hok Hsplit. unfold main. rewrite (fetch_tle_replied r Hok), Hsplit.
  reflexivity.
Qed.

(** X7: after a successful fetch the check of line 74 depends on the two
    element lines only: the script stops, without any message, exactly when
    line 1 or line 2 is empty, and goes on with the dashboard otherwise. *)
Theorem empty_line_stops_silently
        (r : response) (name line1 line2 : string) (rest : list string) :
  raise_for_status r = ret tt ->
  Py.split_crlf (Py.strip (text r)) = name :: line1 :: line2 :: rest ->
  main (Replied r) now_live now_passes selected_city
  = if (String.eqb line1 "" || String.eqb line2 "")%bool then (page_top, Stopped)
    else let '(shown, how) :=
           dashboard name line1 line2 now_live now_passes selected_city in
         ((page_top ++ shown)%list, how).
Proof.
  intros Hok Hsplit. rewrite (main_replied _ _ _ _ _ Hok Hsplit).
  destruct (first_piece_not_blank _ _ _ Hsplit) as [[_ [=]]|(c & tail & -> & _)].
  destruct line1 as [|c1 line1]; [reflexivity|].
  destruct line2 as [|c2 line2]; reflexivity.
Qed.

Lemma dashboard_no_error (iss_name iss_l1 iss_l2 : string) :
  existsb is_st_error
          (fst (dashboard iss_name iss_l1 iss_l2 now_live now_passes selected_city))
  = false /\
  forall msg : string,
    snd (dashboard iss_name iss_l1 iss_l2 now_live now_passes selected_city)
    <> Uncaught (RequestException msg).
Proof.
  unfold dashboard.
  destruct (subpoint (EarthSatellite iss_l1 iss_l2 iss_name) now_live)
    as [[lat lon] alt_km].
  destruct (st_map_rejects lat lon); [split; [reflexivity|discriminate]|].
  destruct (calculate_passes (EarthSatellite iss_l1 iss_l2 iss_name) now_passes
              (city_latitude selected_city) (city_longitude selected_city))
    as [e|[|row rows]] eqn:Hpasses; cbn; (split; [reflexivity|]);
    intros msg; try discriminate.
  apply calculate_passes_only_index_error in Hpasses. subst e. discriminate.
Qed.

(** X8: whatever the network and the propagator do, the page shows the error
    box exactly when the fetch fails, and the script never ends with a
    [RequestException]. *)
Theorem error_box_iff_fetch_fails (net : http) :
  existsb is_st_error (fst (main net now_live now_passes selected_city))
  = fetch_fails net /\
  forall msg : string,
    snd (main net now_live now_passes selected_city)
    <> Uncaught (RequestException msg).
Proof.
  destruct (fetch_fails net) eqn:Hfail.
  - destruct (fetch_tle_failed net Hfail) as [msg Hmsg].
    unfold main. rewrite Hmsg. cbn. split; [reflexivity|discriminate].
  - destruct net as [msg|r]; [discriminate Hfail|].
    destruct (raise_for_status_cases r) as [[_ Hok]|[Hbad _]]; [|congruence].
    destruct (Py.split_crlf (Py.strip (text r))) as [|a [|b [|c l]]] eqn:Hsplit.
    4: { rewrite (main_replied _ _ _ _ _ Hok Hsplit).
         destruct (negb (Py.all [Some a; Some b; Some c]));
           [split; [reflexivity|discriminate]|].
         destruct (dashboard_no_error a b c) as [Hshown Hhow].
         destruct (dashboard a b c now_live now_passes selected_city)
           as [shown how].
         cbn [fst snd] in *. split; [|exact Hhow].
         rewrite existsb_app, Hshown. reflexivity. }
    all: unfold main; rewrite (fetch_tle_replied r Hok), Hsplit;
      split; [reflexivity|discriminate].
Qed.

(** X9: when the position under the satellite is a number in latitude and
    in longitude and every accepted group has its instants, the dashboard
    runs to its end and closes the page with exactly one of two things: the
    table of the accepted passes when there is at least one, and the note
    that names the selected city when there is none.  An empty table is
    never shown. *)
Theorem page_ends_with_table_or_note
        (iss_name iss_l1 iss_l2 : string) (lat lon alt_km : float)
        (times : list Time) (events : list Z) :
  subpoint (EarthSatellite iss_l1 iss_l2 iss_name) now_live = (lat, lon, alt_km) ->
  st_map_rejects lat lon = false ->
  events_found (EarthSatellite iss_l1 iss_l2 iss_name) now_passes
               (city_latitude selected_city) (city_longitude selected_city)
  = (times, events) ->
  (forall j : nat,
     nth_triple_in_order events j -> (3 * j + 3 <= List.length times)%nat) ->
  exists live : list widget,
    dashboard iss_name iss_l1 iss_l2 now_live now_passes selected_city
    = ((live ++
        [match accepted times events with
         | [] => no_passes_note selected_city
         | passes =>
             st_dataframe
               (map (row_of (EarthSatellite iss_l1 iss_l2 iss_name)
                            (Topos (city_latitude selected_city)
                                   (city_longitude selected_city)))
                    passes)
         end])%list, Finished) /\
    existsb is_closing live = false.
Proof.
  intros Hpoint Hmap Hfound Hall. unfold dashboard. rewrite Hpoint, Hmap.
  rewrite (calculate_passes_grouped _ _ _ _ _ _ Hfound), (grouped_accepted _ _ Hall).
  cbn [bind ret].
  destruct (accepted times events) as [|p passes]; cbn [map];
    eexists; (split; [reflexivity|reflexivity]).
Qed.


End ScriptFacts.

(** ** These facts on concrete inputs *)

Lemma index_error_iff_instants_missing_witness :
  let events := [1; 2; 0; 0; 1; 2] in
  Stub.found (Stub.short_pass, events) = (Stub.short_pass, events) /\
  nth_triple_in_order events 1 /\
  (List.length Stub.short_pass < 3 * 1 + 3)%nat /\
  Stub.passes (Stub.short_pass, events) = raise IndexError.
Proof.
  intros events.
  assert (Hcodes : nth_triple_in_order events 1) by (repeat split).
  assert (Hlen : (List.length Stub.short_pass < 3 * 1 + 3)%nat) by (cbn; lia).
  split; [reflexivity|]. split; [exact Hcodes|]. split; [exact Hlen|].
  apply (proj1 (@index_error_iff_instants_missing Stub.sky
                  (Stub.short_pass, events) 0%float Stub.lat Stub.lon
                  Stub.short_pass events eq_refl)).
  exists 1%nat. split; assumption.
Defined.

Lemma instants_read_for_accepted_groups_only_witness :
  let events := [0; 1; 2; 0; 1; 2; 1; 1; 1] in
  Stub.found (Stub.six_instants, events) = (Stub.six_instants, events) /\
  (forall j : nat,
     nth_triple_in_order events j ->
     (3 * j + 3 <= List.length Stub.six_instants)%nat) /\
  Stub.passes (Stub.six_instants, events)
  = ret [Stub.row "0.2500" "5.6"; Stub.row "0.3125" "5.6"].
Proof.
  intros events.
  assert (Hall : forall j : nat,
             nth_triple_in_order events j ->
             (3 * j + 3 <= List.length Stub.six_instants)%nat).
  { intros [|[|[|j]]] Hj; try (cbn; lia).
    - destruct Hj as (H0 & _). discriminate H0.
    - apply in_order_needs_three in Hj. cbn [List.length events] in Hj. lia. }
  split; [reflexivity|]. split; [exact Hall|].
  exact (@instants_read_for_accepted_groups_only Stub.sky
           (Stub.six_instants, events) 0%float Stub.lat Stub.lon
           Stub.six_instants events eq_refl Hall).
Defined.

Lemma rows_at_most_one_per_group_witness :
  let events := [0; 1; 2; 1; 1; 1; 0; 1] in
  Stub.found (Stub.six_instants, events) = (Stub.six_instants, events) /\
  Stub.passes (Stub.six_instants, events) = ret [Stub.row "0.2500" "5.6"] /\
  (List.length [Stub.row "0.2500" "5.6"] <= List.length events / 3)%nat.
Proof.
  intros events. split; [reflexivity|]. split; [reflexivity|].
  exact (@rows_at_most_one_per_group Stub.sky (Stub.six_instants, events)
           0%float Stub.lat Stub.lon Stub.six_instants events
           [Stub.row "0.2500" "5.6"] eq_refl eq_refl).
Defined.

Lemma table_of_concatenation_witness :
  let iss : list float * list Z := (Stub.six_instants, [0; 1; 2; 0; 1; 2]) in
  List.length (firstn 3 Stub.six_instants) = List.length [0; 1; 2] /\
  (List.length [0; 1; 2] mod 3 = 0)%nat /\
  Stub.group iss (firstn 3 Stub.six_instants ++ skipn 3 Stub.six_instants)
             ([0; 1; 2] ++ [0; 1; 2])
  = (front <- Stub.group iss (firstn 3 Stub.six_instants) [0; 1; 2] ;;
     back <- Stub.group iss (skipn 3 Stub.six_instants) [0; 1; 2] ;;
     ret (front ++ back)%list).
Proof.
  intros iss. split; [reflexivity|]. split; [reflexivity|].
  exact (@table_of_concatenation Stub.sky iss Stub.lat Stub.lon
           (firstn 3 Stub.six_instants) (skipn 3 Stub.six_instants)
           [0; 1; 2] [0; 1; 2] eq_refl eq_refl).
Defined.

Lemma fetched_name_not_blank_witness :
  let padded := Stub.ok_reply ("  ISS" ++ Py.CRLF ++ "1" ++ Py.CRLF ++ "2") in
  fetch_tle (Replied padded) = ([], ret (Some "ISS", Some "1", Some "2")) /\
  "ISS" <> "" /\ starts_with_space "ISS" = false.
Proof.
  intros padded. split; [reflexivity|].
  exact (fetched_name_not_blank (Replied padded) [] "ISS" (Some "1") (Some "2")
           eq_refl).
Defined.

Lemma empty_line_stops_silently_witness :
  raise_for_status Cases.gap_reply = ret tt /\
  Py.split_crlf (Py.strip (text Cases.gap_reply))
  = ["ISS (ZARYA)"; ""; "2 25544  51.6400"] /\
  @main Stub.sky (Replied Cases.gap_reply) 0%float 0%float London
  = (page_top, Stopped).
Proof.
  split; [reflexivity|]. split; [reflexivity|].
  exact (@empty_line_stops_silently Stub.sky 0%float 0%float London
           Cases.gap_reply "ISS (ZARYA)" "" "2 25544  51.6400" [] eq_refl eq_refl).
Defined.

Lemma page_ends_with_table_or_note_witness :
  let iss := @EarthSatellite Cases.seen_twice "1 25544U" "2 25544" "ISS (ZARYA)" in
  @subpoint Cases.seen_twice iss 0%float = (0, 0, 0)%float /\
  st_map_rejects 0 0 = false /\
  @events_found Cases.seen_twice iss 0%float
                (city_latitude Tokyo) (city_longitude Tokyo)
  = (Stub.six_instants, [0; 1; 2; 0; 1; 2]) /\
  (forall j : nat,
     nth_triple_in_order [0; 1; 2; 0; 1; 2] j ->
     (3 * j + 3 <= List.length Stub.six_instants)%nat) /\
  exists live : list widget,
    @dashboard Cases.seen_twice "ISS (ZARYA)" "1 25544U" "2 25544"
               0%float 0%float Tokyo
    = ((live ++ [st_dataframe [Stub.row "0.2500" "5.6"; Stub.row "0.3125" "5.6"]])%list,
       Finished) /\
    existsb is_closing live = false.
Proof.
  intros iss.
  assert (Hall : forall j : nat,
             nth_triple_in_order [0; 1; 2; 0; 1; 2] j ->
             (3 * j + 3 <= List.length Stub.six_instants)%nat).
  { intros j Hj. apply in_order_needs_three in Hj. exact Hj. }
  split; [reflexivity|]. split; [reflexivity|]. split; [reflexivity|].
  split; [exact Hall|].
  exact (@page_ends_with_table_or_note Cases.seen_twice 0%float 0%float Tokyo
           "ISS (ZARYA)" "1 25544U" "2 25544" 0%float 0%float 0%float
           Stub.six_instants [0; 1; 2; 0; 1; 2] eq_refl eq_refl eq_refl Hall).
Defined.


(** ** White space around the body *)

Lemma lstrip_all_space (w s : string) :
  all_space w = true -> Py.lstrip (w ++ s) = Py.lstrip s.
Proof.
  induction w as [|c w IH]; cbn [all_space append Py.lstrip]; [reflexivity|].
  intros H. apply andb_true_iff in H as [-> Hw]. auto.
Qed.

Lemma rstrip_all_space (w : string) : all_space w = true -> Py.rstrip w = "".
Proof.
  induction w as [|c w IH]; cbn [all_space Py.rstrip]; [reflexivity|].
  intros H. apply andb_true_iff in H as [-> Hw]. now rewrite IH.
Qed.

Lemma rstrip_app_all_space (s w : string) :
  all_space w = true -> Py.rstrip (s ++ w) = Py.rstrip s.
Proof.
  intros Hw. induction s as [|c s IH]; cbn [append Py.rstrip].
  - now apply rstrip_all_space.
  - now rewrite IH.
Qed.

Lemma lstrip_app (s w : string) :
  Py.lstrip (s ++ w) = Py.lstrip s ++ w \/
  (Py.lstrip s = "" /\ Py.lstrip (s ++ w) = Py.lstrip w).
Proof.
  induction s as [|c s IH]; cbn [append Py.lstrip]; [right; auto|].
  destruct (Py.isspace c); [exact IH|left; reflexivity].
Qed.

Lemma strip_padding (before s after : string) :
  all_space before = true -> all_space after = true ->
  Py.strip (before ++ s ++ after) = Py.strip s.
Proof.
  intros Hb Ha. unfold Py.strip. rewrite (lstrip_all_space _ _ Hb).
  destruct (lstrip_app s after) as [->|[Hs ->]].
  - now apply rstrip_app_all_space.
  - rewrite Hs. cbn [Py.rstrip].
    assert (Hl : forall w, all_space w = true -> Py.lstrip w = "").
    { clear. induction w as [|c w IH]; cbn [all_space Py.lstrip]; [reflexivity|].
      intros H. apply andb_true_iff in H as [-> Hw]. auto. }
    now rewrite (Hl _ Ha).
Qed.

(** X10: white space in front of the body and behind it (such as the line
    break that ends the last line) never changes what [fetch_tle] shows,
    returns or raises. *)
Theorem padding_never_matters (r : response) (before after : string) :
  all_space before = true ->
  all_space after = true ->
  fetch_tle (Replied (with_text r (before ++ text r ++ after)))
  = fetch_tle (Replied r).
Proof.
  intros Hb Ha. unfold fetch_tle. cbn [requests_get bind ret].
  change (raise_for_status (with_text r (before ++ text r ++ after)))
    with (raise_for_status r).
  cbn [with_text text]. now rewrite (strip_padding _ _ _ Hb Ha).
Qed.

Lemma padding_never_matters_witness :
  let body :=
    "ISS (ZARYA)" ++ Py.CRLF ++ "1 25544U" ++ Py.CRLF ++ "2 25544" in
  all_space " " = true /\
  all_space (Py.CRLF ++ Py.CRLF) = true /\
  fetch_tle (Replied (with_text (Stub.ok_reply body)
                                (" " ++ body ++ Py.CRLF ++ Py.CRLF)))
  = fetch_tle (Replied (Stub.ok_reply body)).
Proof.
  intros body. split; [reflexivity|]. split; [reflexivity|].
  exact (padding_never_matters (Stub.ok_reply body) " " (Py.CRLF ++ Py.CRLF)
           eq_refl eq_refl).
Defined.

(** ** Products of days on the grid *)

Lemma digits2_pos_bounds (m : positive) :
  2 ^ (Z.pos (digits2_pos m) - 1) <= Z.pos m < 2 ^ Z.pos (digits2_pos m).
Proof.
  induction m as [m IH|m IH|]; cbn [digits2_pos].
  - rewrite Pos2Z.inj_succ. replace (Z.succ (Z.pos (digits2_pos m)) - 1)
      with (Z.succ (Z.pos (digits2_pos m) - 1)) by lia.
    rewrite !Z.pow_succ_r by lia. lia.
  - rewrite Pos2Z.inj_succ. replace (Z.succ (Z.pos (digits2_pos m)) - 1)
      with (Z.succ (Z.pos (digits2_pos m) - 1)) by lia.
    rewrite !Z.pow_succ_r by lia. lia.
  - cbn. lia.
Qed.

Lemma digits2_pos_unique (m : positive) (d : Z) :
  2 ^ (d - 1) <= Z.pos m < 2 ^ d -> Z.pos (digits2_pos m) = d.
Proof.
  intros [Hlo Hhi]. pose proof (digits2_pos_bounds m) as [Glo Ghi].
  assert (0 < d).
  { destruct (Z.ltb_spec 0 d) as [|Hd]; [assumption|].
    assert (2 ^ d <= 1).
    { destruct (Z.eq_dec d 0) as [->|]; [cbn; lia|rewrite Z.pow_neg_r by lia; lia]. }
    lia. }
  destruct (Z.lt_trichotomy (Z.pos (digits2_pos m)) d) as [Hlt|[Heq|Hgt]]; [|assumption|].
  - assert (2 ^ Z.pos (digits2_pos m) <= 2 ^ (d - 1)) by (apply Z.pow_le_mono_r; lia). lia.
  - assert (2 ^ d <= 2 ^ (Z.pos (digits2_pos m) - 1)) by (apply Z.pow_le_mono_r; lia). lia.
Qed.

Lemma shiftl_nat_value (k : positive) (j : nat) :
  Z.pos (Pos.shiftl_nat k j) = Z.pos k * 2 ^ Z.of_nat j.
Proof.
  induction j as [|j IH]; [cbn; lia|].
  change (Pos.shiftl_nat k (S j)) with (xO (Pos.shiftl_nat k j)).
  rewrite Pos2Z.inj_xO, IH, Nat2Z.inj_succ, Z.pow_succ_r by lia. lia.
Qed.

Lemma digits2_pos_shiftl (k : positive) (j : nat) :
  Z.pos (digits2_pos (Pos.shiftl_nat k j)) = Z.pos (digits2_pos k) + Z.of_nat j.
Proof.
  induction j as [|j IH]; [cbn; lia|].
  change (Pos.shiftl_nat k (S j)) with (xO (Pos.shiftl_nat k j)).
  cbn [digits2_pos]. rewrite Pos2Z.inj_succ, IH. lia.
Qed.

Lemma iter_pos_nat {A : Type} (f : A -> A) (p : positive) (x : A) :
  iter_pos f p x = Nat.iter (Pos.to_nat p) f x.
Proof.
  revert x. induction p as [p IH|p IH|]; intros x; cbn [iter_pos].
  - rewrite !IH, Pos2Nat.inj_xI.
    replace (S (2 * Pos.to_nat p)) with (S (Pos.to_nat p + Pos.to_nat p)) by lia.
    now rewrite Nat.iter_succ_r, Nat.iter_add.
  - rewrite !IH, Pos2Nat.inj_xO.
    replace (2 * Pos.to_nat p)%nat with (Pos.to_nat p + Pos.to_nat p)%nat by lia.
    now rewrite Nat.iter_add.
  - reflexivity.
Qed.

Lemma shr_exact (a : positive) (n : nat) :
  Nat.iter n shr_1 (Build_shr_record (Z.pos (Pos.shiftl_nat a n)) false false)
  = Build_shr_record (Z.pos a) false false.
Proof.
  induction n as [|n IH]; [reflexivity|].
  rewrite Nat.iter_succ_r. change (Pos.shiftl_nat a (S n)) with (xO (Pos.shiftl_nat a n)).
  cbn [shr_1 orb]. exact IH.
Qed.

Lemma shr_shiftl (a : positive) (n : nat) (ex : Z) :
  shr (Build_shr_record (Z.pos (Pos.shiftl_nat a n)) false false) ex (Z.of_nat n)
  = (Build_shr_record (Z.pos a) false false, ex + Z.of_nat n).
Proof.
  destruct n as [|n].
  - cbn. now rewrite Z.add_0_r.
  - cbn [Z.of_nat]. unfold shr.
    rewrite iter_pos_nat, SuccNat2Pos.id_succ, shr_exact. reflexivity.
Qed.

Lemma binary_round_aux_exact (s : bool) (a : positive) (n : nat) (ex : Z) :
  Z.pos (digits2_pos a) = 53 ->
  -1074 <= ex + Z.of_nat n <= 971 ->
  binary_round_aux prec emax s (Z.pos (Pos.shiftl_nat a n)) ex loc_Exact
  = S754_finite s a (ex + Z.of_nat n).
Proof.
  intros Hd Hrange. unfold binary_round_aux, shr_fexp.
  assert (H1 : fexp prec emax (Zdigits2 (Z.pos (Pos.shiftl_nat a n)) + ex) - ex
               = Z.of_nat n).
  { cbn [Zdigits2]. rewrite digits2_pos_shiftl, Hd.
    unfold fexp, SpecFloat.emin, prec, emax. lia. }
  rewrite H1. cbn [shr_record_of_loc]. rewrite shr_shiftl.
  cbn [shr_m loc_of_shr_record round_nearest_even].
  assert (H2 : fexp prec emax (Zdigits2 (Z.pos a) + (ex + Z.of_nat n))
               - (ex + Z.of_nat n) = 0).
  { cbn [Zdigits2]. rewrite Hd. unfold fexp, SpecFloat.emin, prec, emax. lia. }
  rewrite H2. cbn [shr shr_m].
  destruct (Z.leb_spec (ex + Z.of_nat n) (emax - prec)) as [|Hbad]; [reflexivity|].
  unfold emax, prec in Hbad. lia.
Qed.

Lemma digits2_pos_mul_lower (k c : positive) :
  Z.pos (digits2_pos k) + Z.pos (digits2_pos c) - 1 <= Z.pos (digits2_pos (k * c)).
Proof.
  pose proof (digits2_pos_bounds k) as [Hk _].
  pose proof (digits2_pos_bounds c) as [Hc _].
  pose proof (digits2_pos_bounds (k * c)) as [_ Hkc].
  rewrite Pos2Z.inj_mul in Hkc.
  assert (Hprod : 2 ^ (Z.pos (digits2_pos k) - 1) * 2 ^ (Z.pos (digits2_pos c) - 1)
                  <= Z.pos k * Z.pos c) by (apply Z.mul_le_mono_nonneg; lia).
  rewrite <- Z.pow_add_r in Hprod by lia.
  destruct (Z.ltb_spec (Z.pos (digits2_pos (k * c)))
                       (Z.pos (digits2_pos k) + Z.pos (digits2_pos c) - 1)); [|lia].
  assert (2 ^ Z.pos (digits2_pos (k * c))
          <= 2 ^ (Z.pos (digits2_pos k) - 1 + (Z.pos (digits2_pos c) - 1)))
    by (apply Z.pow_le_mono_r; lia).
  lia.
Qed.

(** The product of two grid floats whose integer product still has at most
    53 bits is exact. *)
Lemma SFmul_grid (s : bool) (k c : positive) (g h : Z) :
  Z.pos (digits2_pos (k * c)) <= 53 ->
  -1000 <= g + h <= 900 ->
  SF64mul (grid_float s k g) (grid_float false c h) = grid_float s (k * c) (g + h).
Proof.
  intros Hfit Hrange.
  pose proof (digits2_pos_mul_lower k c) as Hlow.
  assert (Hk : Z.pos (digits2_pos k) <= 53) by lia.
  assert (Hc : Z.pos (digits2_pos c) <= 53) by lia.
  unfold grid_float, SF64mul, SFmul.
  set (jk := (53 - Pos.to_nat (digits2_pos k))%nat).
  set (jc := (53 - Pos.to_nat (digits2_pos c))%nat).
  set (jkc := (53 - Pos.to_nat (digits2_pos (k * c)))%nat).
  assert (Ejk : Z.of_nat jk = 53 - Z.pos (digits2_pos k)) by (subst jk; lia).
  assert (Ejc : Z.of_nat jc = 53 - Z.pos (digits2_pos c)) by (subst jc; lia).
  assert (Ejkc : Z.of_nat jkc = 53 - Z.pos (digits2_pos (k * c))) by (subst jkc; lia).
  set (n := (jk + jc - jkc)%nat).
  assert (En : Z.of_nat n = Z.of_nat jk + Z.of_nat jc - Z.of_nat jkc) by (subst n; lia).
  assert (Hm : (Pos.shiftl_nat k jk * Pos.shiftl_nat c jc)%positive
               = Pos.shiftl_nat (Pos.shiftl_nat (k * c) jkc) n).
  { assert (Hp : 2 ^ Z.of_nat jkc * 2 ^ Z.of_nat n
                 = 2 ^ Z.of_nat jk * 2 ^ Z.of_nat jc).
    { rewrite <- !Z.pow_add_r by lia. f_equal. lia. }
    apply Pos2Z.inj. rewrite Pos2Z.inj_mul, !shiftl_nat_value, Pos2Z.inj_mul.
    transitivity (Z.pos k * Z.pos c * (2 ^ Z.of_nat jk * 2 ^ Z.of_nat jc));
      [ring|rewrite <- Hp; ring]. }
  rewrite Hm. rewrite xorb_false_r.
  rewrite binary_round_aux_exact.
  - f_equal. lia.
  - rewrite digits2_pos_shiftl. lia.
  - lia.
Qed.

Lemma SFmul_zero (s : bool) (c : positive) (h : Z) :
  SF64mul (S754_zero s) (grid_float false c h) = S754_zero s.
Proof. cbn. now rewrite xorb_false_r. Qed.

Lemma sf24 : Prim2SF 24 = grid_float false 3 3.
Proof. reflexivity. Qed.

Lemma sf60 : Prim2SF 60 = grid_float false 15 2.
Proof. reflexivity. Qed.

Lemma sf1440 : Prim2SF 1440 = grid_float false 45 5.
Proof. reflexivity. Qed.

Lemma grid_minutes (d : float) :
  on_grid d -> Prim2SF (d * 24 * 60)%float = Prim2SF (d * 1440)%float.
Proof.
  intros [[s Hz]|(s & k & Hk & Hsmall)].
  - rewrite !mul_spec, Hz, sf24, sf60, sf1440, !SFmul_zero. reflexivity.
  - assert (Hfit : Z.pos (digits2_pos (k * 45)) <= 53).
    { pose proof (digits2_pos_bounds (k * 45)) as [Hlo _].
      rewrite Pos2Z.inj_mul in Hlo.
      destruct (Z.leb_spec (Z.pos (digits2_pos (k * 45))) 53); [assumption|].
      assert (2 ^ 53 <= 2 ^ (Z.pos (digits2_pos (k * 45)) - 1))
        by (apply Z.pow_le_mono_r; lia).
      change (2 ^ 47) with 140737488355328 in Hsmall.
      change (2 ^ 53) with 9007199254740992 in *. lia. }
    assert (Hfit3 : Z.pos (digits2_pos (k * 3)) <= 53).
    { pose proof (digits2_pos_bounds (k * 3)) as [Hlo _].
      rewrite Pos2Z.inj_mul in Hlo.
      destruct (Z.leb_spec (Z.pos (digits2_pos (k * 3))) 53); [assumption|].
      assert (2 ^ 53 <= 2 ^ (Z.pos (digits2_pos (k * 3)) - 1))
        by (apply Z.pow_le_mono_r; lia).
      change (2 ^ 47) with 140737488355328 in Hsmall.
      change (2 ^ 53) with 9007199254740992 in *. lia. }
    rewrite !mul_spec, Hk, sf24, sf60, sf1440.
    rewrite (SFmul_grid s k 3) by (assumption || lia).
    rewrite (SFmul_grid s (k * 3) 15).
    + rewrite (SFmul_grid s k 45) by (assumption || lia).
      replace (k * 3 * 15)%positive with (k * 45)%positive by lia.
      reflexivity.
    + replace (k * 3 * 15)%positive with (k * 45)%positive by lia. assumption.
    + lia.
Qed.

Lemma round_half_even_cancel (a b c : Z) :
  0 < b -> 0 < c ->
  Py.round_half_even (a * c) (b * c) = Py.round_half_even a b.
Proof.
  intros Hb Hc. unfold Py.round_half_even.
  rewrite Z.div_mul_cancel_r by lia.
  rewrite Z.mul_mod_distr_r by lia.
  replace (2 * (a mod b * c)) with (2 * (a mod b) * c) by ring.
  rewrite <- Zmult_compare_compat_r by lia. reflexivity.
Qed.

Lemma scaled_on_grid (p : nat) (m : positive) (e a g c : Z) :
  e < 0 -> 0 <= g -> 0 < c ->
  Z.pos m = a * c -> 2 ^ (- e) = 2 ^ g * c ->
  Py.scaled p m e = Py.round_half_even (a * 10 ^ Z.of_nat p) (2 ^ g).
Proof.
  intros He Hg Hc Hm Hden. unfold Py.scaled.
  destruct (Z.leb_spec 0 e); [lia|].
  rewrite Hm, Hden.
  replace (a * c * 10 ^ Z.of_nat p) with (a * 10 ^ Z.of_nat p * c) by ring.
  apply round_half_even_cancel; [apply Z.pow_pos_nonneg; lia|assumption].
Qed.

(** On the grid the binary64 product with 1440 is the exact product. *)
Lemma grid_exact (d : float) :
  on_grid d -> minutes_1440 d = minutes_exact d.
Proof.
  unfold minutes_1440, minutes_exact, Py.format_f.
  intros [[s Hz]|(s & k & Hk & Hsmall)].
  - rewrite mul_spec, Hz, sf1440, SFmul_zero. reflexivity.
  - assert (Hfit : Z.pos (digits2_pos (k * 45)) <= 53).
    { pose proof (digits2_pos_bounds (k * 45)) as [Hlo _].
      rewrite Pos2Z.inj_mul in Hlo.
      destruct (Z.leb_spec (Z.pos (digits2_pos (k * 45))) 53); [assumption|].
      assert (2 ^ 53 <= 2 ^ (Z.pos (digits2_pos (k * 45)) - 1))
        by (apply Z.pow_le_mono_r; lia).
      change (2 ^ 47) with 140737488355328 in Hsmall.
      change (2 ^ 53) with 9007199254740992 in *. lia. }
    pose proof (digits2_pos_mul_lower k 45) as Hlow.
    change (Z.pos (digits2_pos 45)) with 6 in Hlow.
    rewrite mul_spec, Hk, sf1440, (SFmul_grid s k 45) by (assumption || lia).
    unfold grid_float. cbn [scale_spec Py.format_spec]. f_equal. f_equal.
    set (jk := (53 - Pos.to_nat (digits2_pos k))%nat).
    set (jkc := (53 - Pos.to_nat (digits2_pos (k * 45)))%nat).
    assert (Ejk : 0 <= Z.of_nat jk) by lia.
    assert (Ejkc : 0 <= Z.of_nat jkc) by lia.
    rewrite (scaled_on_grid 1 _ _ (Z.pos k * 45) 26 (2 ^ Z.of_nat jkc)).
    + rewrite (scaled_on_grid 1 _ _ (Z.pos k * 45) 26 (2 ^ Z.of_nat jk * 32)).
      * reflexivity.
      * lia.
      * lia.
      * assert (0 < 2 ^ Z.of_nat jk) by (apply Z.pow_pos_nonneg; lia). lia.
      * rewrite Pos2Z.inj_mul, shiftl_nat_value. ring.
      * replace (- (-31 - Z.of_nat jk)) with (26 + (Z.of_nat jk + 5)) by lia.
        rewrite !Z.pow_add_r by lia. change (2 ^ 5) with 32. ring.
    + lia.
    + lia.
    + apply Z.pow_pos_nonneg; lia.
    + rewrite shiftl_nat_value, Pos2Z.inj_mul. ring.
    + replace (- (-31 + 5 - Z.of_nat jkc)) with (26 + Z.of_nat jkc) by lia.
      now rewrite Z.pow_add_r by lia.
Qed.

Section Duration.

Context {sky : Skyfield}.
Variables (iss : Satellite) (now : Time) (latitude longitude : float).

(** C4: for every group of three events at an index 0, 3, 6, ... whose codes
    are 0, 1, 2, the table has a row for the pass, and its duration is the
    difference of the set and the rise instant in days multiplied by 1440,
    shown with one decimal.  This is so for a difference on the grid of the
    Julian dates, where the products of the script with 24 and with 60 are
    exact: the duration is then both the binary64 product with 1440 and the
    exact product, rounded once to one decimal. *)
Theorem duration_is_days_times_1440
        (times : list Time) (events : list Z) (j : nat)
        (rise_time culminate_time set_time : Time) :
  events_found iss now latitude longitude = (times, events) ->
  List.length times = List.length events ->
  nth_triple_in_order events j ->
  nth_triple times j (rise_time, culminate_time, set_time) ->
  on_grid (time_sub set_time rise_time) ->
  exists (rows : list pass_row) (row : pass_row),
    calculate_passes iss now latitude longitude = ret rows /\
    In row rows /\
    rise_time_utc row = utc_strftime rise_time "%Y-%m-%d %H:%M" /\
    duration_min row = minutes_1440 (time_sub set_time rise_time) /\
    duration_min row = minutes_exact (time_sub set_time rise_time).
Proof.
  intros Hfound Hlen Hcodes Htriple Hgrid.
  destruct (duration_is_days_times_24_times_60 iss now latitude longitude
              times events j rise_time culminate_time set_time
              Hfound Hlen Hcodes Htriple)
    as (rows & row & Hrows & Hin & Hrise & Hduration).
  assert (H1440 : duration_min row = minutes_1440 (time_sub set_time rise_time)).
  { rewrite Hduration. unfold minutes_1440, Py.format_f.
    now rewrite (grid_minutes _ Hgrid). }
  exists rows, row. repeat split; try assumption.
  rewrite H1440. now apply grid_exact.
Qed.

End Duration.

Lemma duration_is_days_times_1440_witness :
  Stub.found (Cases.julian_pass, [0; 1; 2]) = (Cases.julian_pass, [0; 1; 2]) /\
  List.length Cases.julian_pass = List.length [0; 1; 2] /\
  nth_triple_in_order [0; 1; 2] 0 /\
  nth_triple Cases.julian_pass 0
    (2460311.5, 2460311.5 + 0.0014, 2460311.5 + 0.0028125)%float /\
  Prim2SF (@time_sub Stub.sky (2460311.5 + 0.0028125) 2460311.5)%float
  = grid_float false 6039798 (-31) /\
  exists (rows : list pass_row) (row : pass_row),
    Stub.passes (Cases.julian_pass, [0; 1; 2]) = ret rows /\
    In row rows /\
    rise_time_utc row = "2460311.5000" /\
    duration_min row = "4.1" /\
    duration_min row = "4.1".
Proof.
  assert (Hcodes : nth_triple_in_order [0; 1; 2] 0) by (repeat split).
  assert (Htriple : nth_triple Cases.julian_pass 0
            (2460311.5, 2460311.5 + 0.0014, 2460311.5 + 0.0028125)%float)
    by (repeat split).
  assert (Hvalue : Prim2SF (@time_sub Stub.sky (2460311.5 + 0.0028125) 2460311.5)%float
                   = grid_float false 6039798 (-31)) by reflexivity.
  assert (Hgrid : on_grid (@time_sub Stub.sky (2460311.5 + 0.0028125) 2460311.5)%float).
  { right. exists false, 6039798%positive. split; [exact Hvalue|reflexivity]. }
  split; [reflexivity|]. split; [reflexivity|]. split; [exact Hcodes|].
  split; [exact Htriple|]. split; [exact Hvalue|].
  exact (@duration_is_days_times_1440 Stub.sky (Cases.julian_pass, [0; 1; 2])
           0%float Stub.lat Stub.lon Cases.julian_pass [0; 1; 2] 0%nat
           2460311.5%float (2460311.5 + 0.0014)%float (2460311.5 + 0.0028125)%float
           eq_refl eq_refl Hcodes Htriple Hgrid).
Defined.
